(** * The MCP WebSocket hook of the Strudel REPL

    A shallow embedding of the React hook [useWebSocketMCP] and of the
    protocol it speaks with the MCP server.  Two copies of the hook live in
    the repository:

    - [src/website/src/repl/useWebSocketMCP.jsx], embedded in module
      [UseWebSocketMCP];
    - [src/unnamed/part_001], embedded in module [Part001].

    The hook is event driven.  Every callback (socket handlers, timer
    callbacks, React effects) is a computation in a small state-and-exception
    monad [M] that also records the observable actions of the callback in
    order.  The browser (WebSocket objects, timers, the clock) and React (the
    order in which effects run) are the environment: they decide which
    callback runs next, see [step]. *)

From Stdlib Require Import ZArith Ascii String List Lia DecimalString.
From stdpp Require Import base list strings.

Import ListNotations.
Set Warnings "-register-all".
Open Scope string_scope.
Open Scope Z_scope.

(** ** JavaScript values *)

Module JS.

(** What [JSON.parse] can return, plus [undefined] (the value of a missing
    property).  The hook never does arithmetic on a number it receives, so a
    number is kept as an integer. *)
Inductive value : Type :=
| VUndefined
| VNull
| VBool (b : bool)
| VNum (n : Z)
| VStr (s : string)
| VArr (items : list value)
| VObj (fields : list (string * value)).

Inductive exn : Type :=
| SyntaxError          (* JSON.parse on a malformed text *)
| TypeError            (* property access on null or undefined *)
| InvalidStateError    (* WebSocket.send while CONNECTING *)
| EditorError (msg : string).  (* whatever the editor throws *)

(** The outcome of evaluating an expression or running a statement. *)
Inductive completion (A : Type) : Type :=
| Normal (a : A)
| Throw (e : exn).
Arguments Normal {A} a.
Arguments Throw {A} e.

Fixpoint own_property (k : string) (fields : list (string * value)) : value :=
  match fields with
  | [] => VUndefined
  | (k', v) :: rest => if String.eqb k k' then v else own_property k rest
  end.

(** [v.k].  The hook reads only the properties [type], [metadata],
    [description], [code] and [request_id]; none of them exists on a
    primitive, on an array or on [Object.prototype], so they are [undefined]
    except on an object that owns them. *)
Definition get (v : value) (k : string) : completion value :=
  match v with
  | VUndefined | VNull => Throw TypeError
  | VObj fields => Normal (own_property k fields)
  | _ => Normal VUndefined
  end.

(** [v?.k] *)
Definition get_opt (v : value) (k : string) : completion value :=
  match v with
  | VUndefined | VNull => Normal VUndefined
  | _ => get v k
  end.

(** [v === 'lit'] for a string literal. *)
Definition is_string (v : value) (lit : string) : bool :=
  match v with
  | VStr s => String.eqb s lit
  | _ => false
  end.

Definition truthy (v : value) : bool :=
  match v with
  | VUndefined | VNull => false
  | VBool b => b
  | VNum n => negb (n =? 0)
  | VStr s => negb (String.eqb s "")
  | VArr _ | VObj _ => true
  end.

(** [a || b] *)
Definition or_else (a b : value) : value := if truthy a then a else b.

(** [a || 'lit'] where [a] is a string. *)
Definition str_or_else (a lit : string) : string :=
  if String.eqb a "" then lit else a.

(** [hay.includes(needle)] *)
Fixpoint includes (hay needle : string) : bool :=
  String.prefix needle hay
  || match hay with
     | EmptyString => false
     | String _ rest => includes rest needle
     end.

End JS.
Export JS.

(** ** The platform: JSON and the editor *)

(** [JSON.parse] and [JSON.stringify] belong to the JavaScript runtime.
    [JSON_parse] is [None] where [JSON.parse] throws a [SyntaxError]. *)
Class JSON := {
  JSON_parse : string -> option value;
  JSON_stringify : value -> string;
}.

(** The editor behind [editorRef.current] (a StrudelMirror in the REPL).
    Its methods return nothing and may change the editor or throw; [code] is
    the property read [editorRef.current.code], [getCode] the method call
    [editorRef.current.getCode()].  The current code is a string. *)
Class EditorAdapter (E : Type) := {
  setCode : value -> E -> completion unit * E;
  evaluate : E -> completion unit * E;
  stop : E -> completion unit * E;
  code : E -> completion string;
  getCode : E -> completion string * E;
}.

(** ** The state of one mounted hook and of its page *)

Inductive ReadyState : Type := CONNECTING | OPEN | CLOSING | CLOSED.

Record WebSocket : Type := {
  url : string;
  readyState : ReadyState;
}.

(** [window.location] *)
Record Location : Type := {
  protocol : string;
  host : string;
  port : string;
}.

(** The only function ever handed to [setTimeout]. *)
Inductive Callback : Type := ConnectWebSocket.

Record Timer : Type := {
  due : Z;
  callback : Callback;
}.

(** The arrow functions that the hook stores in [window.strudelMCP].  Each
    of them closes over [editorRef] and over nothing else, so the function
    is given by its text; [call] runs it. *)
Inductive Closure : Type :=
| FnSetCode   (* (code) => { editorRef.current.setCode(code);
                             editorRef.current.evaluate(); } *)
| FnEvaluate  (* () => editorRef.current.evaluate() *)
| FnStop      (* () => editorRef.current.stop() *)
| FnCode      (* () => editorRef.current.code *)
| FnGetCode.  (* () => editorRef.current.getCode() *)

(** [window.strudelMCP]: four functions, and the session id and the status
    of the render that published it. *)
Record StrudelMCP : Type := {
  mcp_setCode : Closure;
  mcp_play : Closure;
  mcp_stop : Closure;
  mcp_getCode : Closure;
  mcp_sessionId : string;
  mcp_connectionStatus : string;
}.

Record State (E : Type) : Type := {
  location : Location;             (* window.location *)
  now : Z;                         (* Date.now() *)
  sessionId : string;              (* useState('') *)
  connectionStatus : string;       (* useState('disconnected') *)
  sockets : list WebSocket;        (* every WebSocket the hook has created *)
  wsRef : option nat;              (* wsRef.current, an index into sockets *)
  editorRef : option E;            (* editorRef.current *)
  timers : list Timer;             (* pending setTimeout calls *)
  strudelMCP : option StrudelMCP;  (* window.strudelMCP *)
}.
Arguments location {E} s.
Arguments now {E} s.
Arguments sessionId {E} s.
Arguments connectionStatus {E} s.
Arguments sockets {E} s.
Arguments wsRef {E} s.
Arguments editorRef {E} s.
Arguments timers {E} s.
Arguments strudelMCP {E} s.

(** ** Observable actions *)

Inductive Level : Type := Log | Error.

(** Arguments of a console call after the leading text. *)
Inductive LogArg : Type :=
| AValue (v : value)
| AString (s : string)
| AExn (e : exn)
| ALength (s : string)        (* s.length *)
| AEditorRef (attached : bool)  (* editorRef.current *)
| ATypeofGetCode                (* typeof editorRef.current.getCode *)
| AReadyState (r : option ReadyState)
| AEvent.                       (* the Event object of an error event *)

Inductive EditorCall : Type :=
| CallSetCode (v : value)
| CallEvaluate
| CallStop
| ReadCode
| CallGetCode.

Inductive Action : Type :=
| Console (l : Level) (text : string) (args : list LogArg)
    (* console.log / console.error; [text] is the leading text of the call,
       without its emoji *)
| Editor (c : EditorCall)
| SetSessionId (id : string)
| SetConnectionStatus (status : string)
| NewWebSocket (sock : nat) (url : string)
| Send (sock : nat) (frame : string)
| Close (sock : nat)
| SetTimeout (cb : Callback) (delay : Z)
| Publish (api : StrudelMCP).

(** ** The monad of callbacks

    A callback starts in a state, ends in a state, returns or throws, and
    leaves the list of what it did.  A throw keeps the state and the actions
    made before it. *)

Section Monad.
Context {E : Type}.

Definition M (A : Type) : Type :=
  State E -> completion A * State E * list Action.

Definition ret {A} (a : A) : M A := fun s => (Normal a, s, []).

Definition bind {A B} (m : M A) (f : A -> M B) : M B := fun s =>
  match m s with
  | (Normal a, s1, t1) => let '(r, s2, t2) := f a s1 in (r, s2, (t1 ++ t2)%list)
  | (Throw e, s1, t1) => (Throw e, s1, t1)
  end.

Definition throw {A} (e : exn) : M A := fun s => (Throw e, s, []).

(** [try { m } catch (error) { handler error }] *)
Definition try_catch {A} (m : M A) (handler : exn -> M A) : M A := fun s =>
  match m s with
  | (Normal a, s1, t1) => (Normal a, s1, t1)
  | (Throw e, s1, t1) => let '(r, s2, t2) := handler e s1 in (r, s2, (t1 ++ t2)%list)
  end.

Definition lift {A} (c : completion A) : M A := fun s => (c, s, []).
Definition gets {A} (f : State E -> A) : M A := fun s => (Normal (f s), s, []).
Definition modify (f : State E -> State E) : M unit := fun s => (Normal tt, f s, []).
Definition emit (a : Action) : M unit := fun s => (Normal tt, s, [a]).

(** [if (c) { m }] *)
Definition when (c : bool) (m : M unit) : M unit := if c then m else ret tt.

End Monad.

Declare Scope js_scope.
Delimit Scope js_scope with js.
Notation "x <- m ;; k" := (bind m (fun x => k))
  (at level 100, m at level 99, k at level 200, right associativity) : js_scope.
Notation "m ;; k" := (bind m (fun _ => k))
  (at level 100, k at level 200, right associativity) : js_scope.
Open Scope js_scope.

(** Field updates of [State]. *)
Section Setters.
Context {E : Type}.
Implicit Type s : State E.

Definition with_now (t : Z) s : State E :=
  {| location := location s; now := t; sessionId := sessionId s;
     connectionStatus := connectionStatus s; sockets := sockets s;
     wsRef := wsRef s; editorRef := editorRef s; timers := timers s;
     strudelMCP := strudelMCP s |}.

Definition with_sessionId (id : string) s : State E :=
  {| location := location s; now := now s; sessionId := id;
     connectionStatus := connectionStatus s; sockets := sockets s;
     wsRef := wsRef s; editorRef := editorRef s; timers := timers s;
     strudelMCP := strudelMCP s |}.

Definition with_connectionStatus (st : string) s : State E :=
  {| location := location s; now := now s; sessionId := sessionId s;
     connectionStatus := st; sockets := sockets s;
     wsRef := wsRef s; editorRef := editorRef s; timers := timers s;
     strudelMCP := strudelMCP s |}.

Definition with_sockets (l : list WebSocket) s : State E :=
  {| location := location s; now := now s; sessionId := sessionId s;
     connectionStatus := connectionStatus s; sockets := l;
     wsRef := wsRef s; editorRef := editorRef s; timers := timers s;
     strudelMCP := strudelMCP s |}.

Definition with_wsRef (r : option nat) s : State E :=
  {| location := location s; now := now s; sessionId := sessionId s;
     connectionStatus := connectionStatus s; sockets := sockets s;
     wsRef := r; editorRef := editorRef s; timers := timers s;
     strudelMCP := strudelMCP s |}.

Definition with_editorRef (e : option E) s : State E :=
  {| location := location s; now := now s; sessionId := sessionId s;
     connectionStatus := connectionStatus s; sockets := sockets s;
     wsRef := wsRef s; editorRef := e; timers := timers s;
     strudelMCP := strudelMCP s |}.

Definition with_timers (l : list Timer) s : State E :=
  {| location := location s; now := now s; sessionId := sessionId s;
     connectionStatus := connectionStatus s; sockets := sockets s;
     wsRef := wsRef s; editorRef := editorRef s; timers := l;
     strudelMCP := strudelMCP s |}.

Definition with_strudelMCP (g : option StrudelMCP) s : State E :=
  {| location := location s; now := now s; sessionId := sessionId s;
     connectionStatus := connectionStatus s; sockets := sockets s;
     wsRef := wsRef s; editorRef := editorRef s; timers := timers s;
     strudelMCP := g |}.

End Setters.

(** ** Browser and React primitives *)

Section Platform.
Context {E : Type} `{EditorAdapter E}.
Implicit Type s : State E.

Definition console (l : Level) (text : string) (args : list LogArg) : M (E:=E) unit :=
  emit (Console l text args).

(** The setters of the two [useState] cells. *)
Definition setSessionId (id : string) : M (E:=E) unit :=
  modify (with_sessionId id) ;; emit (SetSessionId id).

Definition setConnectionStatus (status : string) : M (E:=E) unit :=
  modify (with_connectionStatus status) ;; emit (SetConnectionStatus status).

Definition Date_now : M (E:=E) Z := gets now.

Definition setTimeout (cb : Callback) (delay : Z) : M (E:=E) unit := fun s =>
  (Normal tt,
   with_timers (timers s ++ [{| due := now s + delay; callback := cb |}]) s,
   [SetTimeout cb delay]).

(** [wsRef.current = new WebSocket(u)]: the new socket is CONNECTING. *)
Definition new_WebSocket (u : string) : M (E:=E) unit := fun s =>
  let i := length (sockets s) in
  (Normal tt,
   with_wsRef (Some i)
     (with_sockets (sockets s ++ [{| url := u; readyState := CONNECTING |}]) s),
   [NewWebSocket i u]).

(** The object behind [wsRef.current], with its index. *)
Definition current_socket s : option (nat * WebSocket) :=
  match wsRef s with
  | Some i => match sockets s !! i with
              | Some ws => Some (i, ws)
              | None => None
              end
  | None => None
  end.

(** [wsRef.current && wsRef.current.readyState === WebSocket.OPEN] *)
Definition ws_is_open s : bool :=
  match current_socket s with
  | Some (_, {| readyState := OPEN |}) => true
  | _ => false
  end.

(** [wsRef.current?.readyState] *)
Definition ws_readyState s : option ReadyState :=
  match current_socket s with
  | Some (_, ws) => Some (readyState ws)
  | None => None
  end.

(** [wsRef.current.send(frame)].  While CONNECTING the browser throws; on a
    closing or closed socket the frame is discarded without an exception. *)
Definition ws_send (frame : string) : M (E:=E) unit := fun s =>
  match current_socket s with
  | None => (Throw TypeError, s, [])
  | Some (i, ws) =>
      match readyState ws with
      | CONNECTING => (Throw InvalidStateError, s, [])
      | OPEN => (Normal tt, s, [Send i frame])
      | CLOSING | CLOSED => (Normal tt, s, [])
      end
  end.

(** [wsRef.current.close()]: starts the closing handshake unless the socket
    is already closing or closed. *)
Definition ws_close : M (E:=E) unit := fun s =>
  match current_socket s with
  | None => (Throw TypeError, s, [])
  | Some (i, ws) =>
      match readyState ws with
      | CONNECTING | OPEN =>
          (Normal tt,
           with_sockets
             (<[i := {| url := url ws; readyState := CLOSING |}]> (sockets s)) s,
           [Close i])
      | CLOSING | CLOSED => (Normal tt, s, [])
      end
  end.

(** A method call [editorRef.current.f(...)]. *)
Definition editor_method (c : EditorCall) (f : E -> completion unit * E)
  : M (E:=E) unit := fun s =>
  match editorRef s with
  | None => (Throw TypeError, s, [])
  | Some e => let '(r, e') := f e in (r, with_editorRef (Some e') s, [Editor c])
  end.

Definition editor_setCode (v : value) : M (E:=E) unit :=
  editor_method (CallSetCode v) (setCode v).
Definition editor_evaluate : M (E:=E) unit := editor_method CallEvaluate evaluate.
Definition editor_stop : M (E:=E) unit := editor_method CallStop stop.

(** [editorRef.current.code] *)
Definition editor_code : M (E:=E) string := fun s =>
  match editorRef s with
  | None => (Throw TypeError, s, [])
  | Some e => (code e, s, [Editor ReadCode])
  end.

(** [editorRef.current.getCode()] *)
Definition editor_getCode : M (E:=E) string := fun s =>
  match editorRef s with
  | None => (Throw TypeError, s, [])
  | Some e => let '(r, e') := getCode e in
              (r, with_editorRef (Some e') s, [Editor CallGetCode])
  end.

(** [if (editorRef.current)] *)
Definition editor_attached s : bool :=
  match editorRef s with Some _ => true | None => false end.

End Platform.

(** ** The outcome of a callback *)

Section Outcome.
Context {E : Type}.

Definition result {A} (m : M (E:=E) A) (s : State E) : completion A := fst (fst (m s)).
Definition final {A} (m : M (E:=E) A) (s : State E) : State E := snd (fst (m s)).
Definition trace {A} (m : M (E:=E) A) (s : State E) : list Action := snd (m s).

(** A callback respects [R] when [R] relates the state before, the state
    after and the actions, from any state. *)
Definition respects (R : State E -> State E -> list Action -> Prop)
    {A} (m : M (E:=E) A) : Prop :=
  forall s, R s (final m s) (trace m s).

(** Only the editor has changed, and every action is allowed. *)
Definition only_editor (allowed : Action -> bool)
  : State E -> State E -> list Action -> Prop :=
  fun s s' t => s' = with_editorRef (editorRef s') s /\ forallb allowed t = true.

End Outcome.

(** What a copy of the hook installs: the four socket handlers, the timer
    callback and the React effects. *)
Record Hook (E : Type) : Type := {
  hook_connectWebSocket : M (E:=E) unit;
  hook_onopen : string -> M (E:=E) unit;
  hook_onmessage : string -> M (E:=E) unit;
  hook_onclose : M (E:=E) unit;
  hook_onerror : M (E:=E) unit;
  hook_mount : string -> nat -> M (E:=E) unit;
  hook_render : M (E:=E) unit;
  hook_unmount : M (E:=E) unit;
}.
Arguments hook_connectWebSocket {E} h.
Arguments hook_onopen {E} h.
Arguments hook_onmessage {E} h.
Arguments hook_onclose {E} h.
Arguments hook_onerror {E} h.
Arguments hook_mount {E} h.
Arguments hook_render {E} h.
Arguments hook_unmount {E} h.

(** ** [src/website/src/repl/useWebSocketMCP.jsx] *)

Module UseWebSocketMCP.
Section Hook.
Context {E : Type} `{EditorAdapter E} `{JSON}.
#[local] Abbreviation M := (M (E:=E)).

(** [letters] is [Math.random().toString(36).substring(2, 5)] and [digit]
    is [Math.floor(Math.random() * 10)], a number from 0 to 9, appended as
    its decimal digit. *)
Definition generateSessionId (letters : string) (digit : nat) : string :=
  letters ++ String (ascii_of_nat (48 + digit)) "".

(** The gate at the top of [connectWebSocket]. *)
Definition isMCPServer (loc : Location) : bool :=
  String.eqb (port loc) "8080" || String.eqb (port loc) "8000"
  || includes (host loc) "8080" || includes (host loc) "8000".

(** The gate of the effect that publishes [window.strudelMCP]. *)
Definition isMCPServer_global (loc : Location) : bool :=
  String.eqb (port loc) "8080" || includes (host loc) "8080".

(** The [isMCPEnabled] field of the hook's result. *)
Definition isMCPEnabled (loc : Location) : bool :=
  String.eqb (port loc) "8080" || String.eqb (port loc) "8000"
  || includes (host loc) "8080" || includes (host loc) "8000".

Definition wsUrl (loc : Location) (sessionId : string) : string :=
  (if String.eqb (protocol loc) "https:" then "wss:" else "ws:")
  ++ "//" ++ host loc ++ "/strudel/ws?session_id=" ++ sessionId.

Definition current_code_response (requestId : value) (code : string) (timestamp : Z)
  : value :=
  VObj [("type", VStr "current-code-response");
        ("request_id", requestId);
        ("code", VStr code);
        ("timestamp", VNum timestamp)].

Definition sendCurrentCodeToServer (requestId : value) : M unit :=
  console Log "sendCurrentCodeToServer called with requestId:" [AValue requestId] ;;
  attached <- gets editor_attached ;;
  console Log "editorRef.current:" [AEditorRef attached] ;;
  if negb attached then
    console Error "Editor not ready for code retrieval" [] ;;
    (* Send error response instead of just returning *)
    open <- gets ws_is_open ;;
    when open (
      timestamp <- Date_now ;;
      let errorMessage :=
        current_code_response requestId "// Error: Editor not ready" timestamp in
      ws_send (JSON_stringify errorMessage) ;;
      console Log "Sent error response to MCP server" [])
  else
    console Log "editorRef.current.getCode:" [ATypeofGetCode] ;;
    currentCode <-
      try_catch
        (c <- editor_code ;;
         let currentCode := str_or_else c "// No code in editor" in
         console Log "Retrieved code length:" [ALength currentCode] ;;
         ret currentCode)
        (fun error =>
           console Error "Error getting code from editor:" [AExn error] ;;
           ret "// Error: Could not retrieve code") ;;
    open <- gets ws_is_open ;;
    if open then
      timestamp <- Date_now ;;
      let message := current_code_response requestId currentCode timestamp in
      console Log "About to send message:" [AValue message] ;;
      ws_send (JSON_stringify message) ;;
      console Log "Sent current code to MCP server" [ALength currentCode]
    else
      console Error "WebSocket not connected - cannot send code" [] ;;
      state <- gets ws_readyState ;;
      console Log "WebSocket state:" [AReadyState state].

Definition onopen (wsUrl : string) : M unit :=
  setConnectionStatus "connected" ;;
  console Log "WebSocket connected with URL:" [AString wsUrl].

Definition onmessage (event_data : string) : M unit :=
  try_catch
    (data <- lift (match JSON_parse event_data with
                   | Some v => Normal v
                   | None => Throw SyntaxError
                   end) ;;
     console Log "WebSocket received message:" [AValue data] ;;
     type <- lift (get data "type") ;;
     if is_string type "strudel-code" then
       metadata <- lift (get data "metadata") ;;
       d <- lift (get_opt metadata "description") ;;
       let description := or_else d (VStr "") in
       console Log "Processing strudel-code message:" [AValue data] ;;
       (* Set the code and play it using the editor *)
       attached <- gets editor_attached ;;
       when attached (
         code <- lift (get data "code") ;;
         editor_setCode code ;;
         editor_evaluate ;;
         console Log "Pattern playing" [])
     else if is_string type "strudel-stop" || is_string type "stop" then
       console Log "Stop command received" [] ;;
       attached <- gets editor_attached ;;
       when attached (
         editor_stop ;;
         console Log "Stopped all patterns" [])
     else if is_string type "get-current-code" then
       console Log "Sending current editor code to MCP server" [] ;;
       request_id <- lift (get data "request_id") ;;
       sendCurrentCodeToServer request_id
     else if is_string type "ping" then
       ws_send (JSON_stringify (VObj [("type", VStr "pong")]))
     else
       ret tt)
    (fun error => console Error "WebSocket message error:" [AExn error]).

Definition onclose : M unit :=
  setConnectionStatus "disconnected" ;;
  console Log "WebSocket disconnected, attempting to reconnect..." [] ;;
  setTimeout ConnectWebSocket 3000.

Definition onerror : M unit :=
  console Error "WebSocket error:" [AEvent] ;;
  setConnectionStatus "error".

(** The four handlers are assigned to the socket right after it is made;
    they are the definitions above, see [step]. *)
Definition connectWebSocket : M unit :=
  loc <- gets location ;;
  (* Only connect if we detect we're on the MCP server port (8080) or
     Docker port (8000) *)
  if negb (isMCPServer loc) then
    console Log "Not on MCP server, skipping WebSocket connection" []
  else
    sessionId <- gets sessionId ;;
    let wsUrl := wsUrl loc sessionId in
    console Log "Connecting WebSocket with sessionId:" [AString sessionId] ;;
    console Log "WebSocket URL:" [AString wsUrl] ;;
    new_WebSocket wsUrl.

(** [useEffect(() => { setSessionId(generateSessionId()) }, [])] *)
Definition effect_session (letters : string) (digit : nat) : M unit :=
  let newSessionId := generateSessionId letters digit in
  setSessionId newSessionId.

(** [useEffect(() => { if (sessionId) connectWebSocket(); ... }, [sessionId])] *)
Definition effect_connect : M unit :=
  sessionId <- gets sessionId ;;
  when (negb (String.eqb sessionId "")) connectWebSocket.

(** The function that effect returns, run before its next run and at
    unmount. *)
Definition effect_connect_cleanup : M unit :=
  ws <- gets wsRef ;;
  when (match ws with Some _ => true | None => false end) ws_close.

(** The effect that adds the global API for external access. *)
Definition effect_global : M unit :=
  loc <- gets location ;;
  attached <- gets editor_attached ;;
  when (isMCPServer_global loc && attached) (
    sessionId <- gets sessionId ;;
    connectionStatus <- gets connectionStatus ;;
    let api := {| mcp_setCode := FnSetCode;
                  mcp_play := FnEvaluate;
                  mcp_stop := FnStop;
                  mcp_getCode := FnCode;
                  mcp_sessionId := sessionId;
                  mcp_connectionStatus := connectionStatus |} in
    modify (with_strudelMCP (Some api)) ;; emit (Publish api)).

(** The methods of [window.strudelMCP]: the bodies of [FnSetCode],
    [FnEvaluate], [FnStop] and [FnCode]. *)
Definition strudelMCP_setCode (code : value) : M unit :=
  editor_setCode code ;; editor_evaluate.
Definition strudelMCP_play : M unit := editor_evaluate.
Definition strudelMCP_stop : M unit := editor_stop.
Definition strudelMCP_getCode : M string := editor_code.

(** Mounting the component.  React applies [setSessionId] at the next
    render: the effects of the first commit still see [sessionId = ''], and
    the change of [sessionId] then re-runs the two effects that depend on
    it, the cleanup of the connecting effect first. *)
Definition mount (letters : string) (digit : nat) : M unit :=
  effect_connect ;; effect_global ;;
  effect_session letters digit ;;
  effect_connect_cleanup ;; effect_connect ;; effect_global.

Definition hook : Hook E :=
  {| hook_connectWebSocket := connectWebSocket;
     hook_onopen := onopen;
     hook_onmessage := onmessage;
     hook_onclose := onclose;
     hook_onerror := onerror;
     hook_mount := mount;
     hook_render := effect_global;
     hook_unmount := effect_connect_cleanup |}.

End Hook.
End UseWebSocketMCP.

(** ** [src/unnamed/part_001], the second copy of the hook *)

Module Part001.
Section Hook.
Context {E : Type} `{EditorAdapter E} `{JSON}.
#[local] Abbreviation M := (M (E:=E)).

Definition generateSessionId (letters : string) (digit : nat) : string :=
  letters ++ String (ascii_of_nat (48 + digit)) "".

(** One gate, used by [connectWebSocket], by the publishing effect and by
    [isMCPEnabled]. *)
Definition isMCPServer (loc : Location) : bool :=
  String.eqb (port loc) "8080" || includes (host loc) "8080".

Definition isMCPEnabled (loc : Location) : bool :=
  String.eqb (port loc) "8080" || includes (host loc) "8080".

Definition wsUrl (loc : Location) (sessionId : string) : string :=
  (if String.eqb (protocol loc) "https:" then "wss:" else "ws:")
  ++ "//" ++ host loc ++ "/strudel/ws?session_id=" ++ sessionId.

Definition sendCurrentCodeToServer (requestId : value) : M unit :=
  attached <- gets editor_attached ;;
  if negb attached then
    console Error "Editor not ready for code retrieval" []
  else
    c <- editor_getCode ;;
    let currentCode := str_or_else c "// No code in editor" in
    open <- gets ws_is_open ;;
    if open then
      timestamp <- Date_now ;;
      let message :=
        VObj [("type", VStr "current-code-response");
              ("request_id", requestId);
              ("code", VStr currentCode);
              ("timestamp", VNum timestamp)] in
      ws_send (JSON_stringify message) ;;
      console Log "Sent current code to MCP server" [ALength currentCode]
    else
      console Error "WebSocket not connected - cannot send code" [].

Definition onopen (wsUrl : string) : M unit :=
  setConnectionStatus "connected" ;;
  console Log "WebSocket connected with URL:" [AString wsUrl].

Definition onmessage (event_data : string) : M unit :=
  try_catch
    (data <- lift (match JSON_parse event_data with
                   | Some v => Normal v
                   | None => Throw SyntaxError
                   end) ;;
     console Log "WebSocket received message:" [AValue data] ;;
     type <- lift (get data "type") ;;
     if is_string type "strudel-code" then
       metadata <- lift (get data "metadata") ;;
       d <- lift (get_opt metadata "description") ;;
       let description := or_else d (VStr "") in
       console Log "Processing strudel-code message:" [AValue data] ;;
       attached <- gets editor_attached ;;
       when attached (
         code <- lift (get data "code") ;;
         editor_setCode code ;;
         editor_evaluate ;;
         console Log "Pattern playing" [])
     else if is_string type "strudel-stop" || is_string type "stop" then
       console Log "Stop command received" [] ;;
       attached <- gets editor_attached ;;
       when attached (
         editor_stop ;;
         console Log "Stopped all patterns" [])
     else if is_string type "get-current-code" then
       console Log "Sending current editor code to MCP server" [] ;;
       request_id <- lift (get data "request_id") ;;
       sendCurrentCodeToServer request_id
     else if is_string type "ping" then
       ws_send (JSON_stringify (VObj [("type", VStr "pong")]))
     else
       ret tt)
    (fun error => console Error "WebSocket message error:" [AExn error]).

Definition onclose : M unit :=
  setConnectionStatus "disconnected" ;;
  console Log "WebSocket disconnected, attempting to reconnect..." [] ;;
  setTimeout ConnectWebSocket 3000.

Definition onerror : M unit :=
  console Error "WebSocket error:" [AEvent] ;;
  setConnectionStatus "error".

Definition connectWebSocket : M unit :=
  loc <- gets location ;;
  (* Only connect if we detect we're on the MCP server port (8080) *)
  if negb (isMCPServer loc) then
    console Log "Not on MCP server, skipping WebSocket connection" []
  else
    sessionId <- gets sessionId ;;
    let wsUrl := wsUrl loc sessionId in
    console Log "Connecting WebSocket with sessionId:" [AString sessionId] ;;
    console Log "WebSocket URL:" [AString wsUrl] ;;
    new_WebSocket wsUrl.

Definition effect_session (letters : string) (digit : nat) : M unit :=
  let newSessionId := generateSessionId letters digit in
  setSessionId newSessionId.

Definition effect_connect : M unit :=
  sessionId <- gets sessionId ;;
  when (negb (String.eqb sessionId "")) connectWebSocket.

Definition effect_connect_cleanup : M unit :=
  ws <- gets wsRef ;;
  when (match ws with Some _ => true | None => false end) ws_close.

Definition effect_global : M unit :=
  loc <- gets location ;;
  attached <- gets editor_attached ;;
  when (isMCPServer loc && attached) (
    sessionId <- gets sessionId ;;
    connectionStatus <- gets connectionStatus ;;
    let api := {| mcp_setCode := FnSetCode;
                  mcp_play := FnEvaluate;
                  mcp_stop := FnStop;
                  mcp_getCode := FnGetCode;
                  mcp_sessionId := sessionId;
                  mcp_connectionStatus := connectionStatus |} in
    modify (with_strudelMCP (Some api)) ;; emit (Publish api)).

(** The bodies of [FnSetCode], [FnEvaluate], [FnStop] and [FnGetCode]. *)
Definition strudelMCP_setCode (code : value) : M unit :=
  editor_setCode code ;; editor_evaluate.
Definition strudelMCP_play : M unit := editor_evaluate.
Definition strudelMCP_stop : M unit := editor_stop.
Definition strudelMCP_getCode : M string := editor_getCode.

Definition mount (letters : string) (digit : nat) : M unit :=
  effect_connect ;; effect_global ;;
  effect_session letters digit ;;
  effect_connect_cleanup ;; effect_connect ;; effect_global.

Definition hook : Hook E :=
  {| hook_connectWebSocket := connectWebSocket;
     hook_onopen := onopen;
     hook_onmessage := onmessage;
     hook_onclose := onclose;
     hook_onerror := onerror;
     hook_mount := mount;
     hook_render := effect_global;
     hook_unmount := effect_connect_cleanup |}.

End Hook.
End Part001.

(** Calling a function of [window.strudelMCP]: [setCode] has a block body
    and returns [undefined], the editor's [evaluate] and [stop] return
    nothing, and the code of the editor is a string. *)
Definition call {E : Type} `{EditorAdapter E} (f : Closure) (args : list value)
  : M (E:=E) value :=
  match f with
  | FnSetCode => UseWebSocketMCP.strudelMCP_setCode (nth 0 args VUndefined) ;; ret VUndefined
  | FnEvaluate => UseWebSocketMCP.strudelMCP_play ;; ret VUndefined
  | FnStop => UseWebSocketMCP.strudelMCP_stop ;; ret VUndefined
  | FnCode => c <- UseWebSocketMCP.strudelMCP_getCode ;; ret (VStr c)
  | FnGetCode => c <- Part001.strudelMCP_getCode ;; ret (VStr c)
  end.

(** ** The event loop

    One turn of the loop runs one callback to completion.  The environment
    picks the turn; [step] is [None] where the browser or React cannot
    produce that turn in the state.

    - A socket fires [open] once, while it is CONNECTING.
    - A socket delivers [message] events only while it is OPEN.
    - When the connection of a socket ends, the browser sets the socket to
      CLOSED and fires [close]; if the connection failed, it fires [error]
      just before [close], in the same turn.
    - A timer fires once, not before it is due.
    - React runs the mount effects once, while no session id exists, and
      the publishing effect after any render. *)

Inductive Event (E : Type) : Type :=
| Mount (letters : string) (digit : nat)
| Render
| Unmount
| SocketOpen (sock : nat)
| SocketMessage (sock : nat) (data : string)
| SocketClose (sock : nat) (failed : bool)
| TimerFires (k : nat)
| Elapse (ms : Z)
| Attach (e : E)
| Detach.
Arguments Mount {E} letters digit.
Arguments Render {E}.
Arguments Unmount {E}.
Arguments SocketOpen {E} sock.
Arguments SocketMessage {E} sock data.
Arguments SocketClose {E} sock failed.
Arguments TimerFires {E} k.
Arguments Elapse {E} ms.
Arguments Attach {E} e.
Arguments Detach {E}.

Section EventLoop.
Context {E : Type}.
Variable h : Hook E.
Implicit Type s : State E.

Definition set_readyState (i : nat) (r : ReadyState) s : State E :=
  match sockets s !! i with
  | Some ws => with_sockets (<[i := {| url := url ws; readyState := r |}]> (sockets s)) s
  | None => s
  end.

Definition run_callback (cb : Callback) : M (E:=E) unit :=
  match cb with
  | ConnectWebSocket => hook_connectWebSocket h
  end.

(** The state after a callback, whether it returned or threw, and what it
    did. *)
Definition turn (m : M (E:=E) unit) s : State E * list Action :=
  (final m s, trace m s).

Definition step s (ev : Event E) : option (State E * list Action) :=
  match ev with
  | Mount letters digit =>
      if String.eqb (sessionId s) "" then Some (turn (hook_mount h letters digit) s)
      else None
  | Render => Some (turn (hook_render h) s)
  | Unmount => Some (turn (hook_unmount h) s)
  | SocketOpen i =>
      match sockets s !! i with
      | Some {| url := u; readyState := CONNECTING |} =>
          Some (turn (hook_onopen h u) (set_readyState i OPEN s))
      | _ => None
      end
  | SocketMessage i data =>
      match sockets s !! i with
      | Some {| readyState := OPEN |} => Some (turn (hook_onmessage h data) s)
      | _ => None
      end
  | SocketClose i failed =>
      match sockets s !! i with
      | Some {| readyState := CLOSED |} | None => None
      | Some _ =>
          Some (turn (when failed (hook_onerror h) ;; hook_onclose h)
                     (set_readyState i CLOSED s))
      end
  | TimerFires k =>
      match timers s !! k with
      | Some t =>
          if due t <=? now s
          then Some (turn (run_callback (callback t)) (with_timers (delete k (timers s)) s))
          else None
      | None => None
      end
  | Elapse ms =>
      if 0 <=? ms then Some (with_now (now s + ms) s, []) else None
  | Attach e => Some (with_editorRef (Some e) s, [])
  | Detach => Some (with_editorRef None s, [])
  end.

(** A run: the states visited (without the first) and everything done. *)
Fixpoint run s (evs : list (Event E)) : option (list (State E) * list Action) :=
  match evs with
  | [] => Some ([], [])
  | ev :: rest =>
      match step s ev with
      | Some (s1, t1) =>
          match run s1 rest with
          | Some (ss, t2) => Some (s1 :: ss, (t1 ++ t2)%list)
          | None => None
          end
      | None => None
      end
  end.

(** The state at the end of a run. *)
Definition after s (evs : list (Event E)) : State E :=
  match run s evs with
  | Some (ss, _) => List.last ss s
  | None => s
  end.

Inductive reachable (s0 : State E) : State E -> Prop :=
| reachable_refl : reachable s0 s0
| reachable_step s ev s' t :
    reachable s0 s -> step s ev = Some (s', t) -> reachable s0 s'.

End EventLoop.

(** The page before the component mounts. *)
Definition initial {E : Type} (loc : Location) (t0 : Z) (editor : option E) : State E :=
  {| location := loc; now := t0; sessionId := ""; connectionStatus := "disconnected";
     sockets := []; wsRef := None; editorRef := editor; timers := [];
     strudelMCP := None |}.

(** ** Reading a trace *)

Definition sent (t : list Action) : list (nat * string) :=
  flat_map (fun a => match a with Send i frame => [(i, frame)] | _ => [] end) t.

Definition editor_calls (t : list Action) : list EditorCall :=
  flat_map (fun a => match a with Editor c => [c] | _ => [] end) t.

Definition statuses (t : list Action) : list string :=
  flat_map (fun a => match a with SetConnectionStatus st => [st] | _ => [] end) t.

Definition timeouts (t : list Action) : list (Callback * Z) :=
  flat_map (fun a => match a with SetTimeout cb d => [(cb, d)] | _ => [] end) t.

Definition opened (t : list Action) : list (nat * string) :=
  flat_map (fun a => match a with NewWebSocket i u => [(i, u)] | _ => [] end) t.

Definition is_console (a : Action) : bool :=
  match a with Console _ _ _ => true | _ => false end.

(** Everything but the console output. *)
Definition effects (t : list Action) : list Action :=
  List.filter (fun a => negb (is_console a)) t.

(** The closed set of inbound type tags. *)
Definition recognized (type : value) : bool :=
  is_string type "strudel-code" || is_string type "strudel-stop"
  || is_string type "stop" || is_string type "get-current-code"
  || is_string type "ping".

(** The [type] tag of a parsed message, when it has one that is a string. *)
Definition message_type (data : value) : option string :=
  match data with
  | VObj fields =>
      match own_property "type" fields with
      | VStr tag => Some tag
      | _ => None
      end
  | _ => None
  end.

(** At most one channel is alive, it is the one behind [wsRef.current],
    and no reconnect is pending while it lives. *)
Record one_channel {E : Type} (s : State E) : Prop := {
  before_mount :
    sessionId s = "" -> sockets s = [] /\ timers s = [] /\ wsRef s = None;
  live_is_current : forall i ws,
    sockets s !! i = Some ws -> readyState ws <> CLOSED ->
    wsRef s = Some i /\ timers s = [];
  one_timer : (length (timers s) <= 1)%nat;
}.

(** The [code] field that the protocol asks for in a
    [current-code-response]: a placeholder when no editor is attached, when
    reading the code throws, or when the code is empty, and the code
    otherwise. *)
Definition expected_code {E : Type} `{EditorAdapter E} (s : State E) : string :=
  match editorRef s with
  | None => "// Error: Editor not ready"
  | Some e =>
      match code e with
      | Throw _ => "// Error: Could not retrieve code"
      | Normal "" => "// No code in editor"
      | Normal c => c
      end
  end.

(** Socket [i] fails, 3000 ms pass, the timer fires: [n] times over, for
    the sockets [i], [i + 1], ... *)
Fixpoint retries {E : Type} (i n : nat) : list (Event E) :=
  match n with
  | O => []
  | S n' => SocketClose i true :: Elapse 3000 :: TimerFires 0 :: retries (S i) n'
  end.

(** The callback leaves the connection status alone. *)
Definition status_neutral {E : Type} : State E -> State E -> list Action -> Prop :=
  fun s s' t => connectionStatus s' = connectionStatus s /\ statuses t = [].

(** The values the connection status is set to by one turn, in order. *)
Definition status_of_event {E : Type} (ev : Event E) : list string :=
  match ev with
  | SocketOpen _ => ["connected"]
  | SocketClose _ false => ["disconnected"]
  | SocketClose _ true => ["error"; "disconnected"]
  | _ => []
  end.

(** Nothing of the subsystem exists on the page. *)
Definition inert {E : Type} (loc : Location) (s : State E) : Prop :=
  location s = loc /\ sockets s = [] /\ timers s = [] /\ wsRef s = None
  /\ strudelMCP s = None.

(** What a message handler may do: write to the console, call the editor,
    send a frame. *)
Definition handler_action (a : Action) : bool :=
  match a with
  | Console _ _ _ | Editor _ | Send _ _ => true
  | _ => false
  end.

(** ** A concrete platform for examples *)

Module Sample.

(** A text editor: [setCode] wants a string, [evaluate] starts playback,
    [stop] ends it, and a broken editor throws when its code is read. *)
Record TextEditor : Type := {
  text : string;
  playing : bool;
  broken : bool;
}.

#[export] Instance TextEditor_adapter : EditorAdapter TextEditor := {|
  setCode v e :=
    match v with
    | VStr c => (Normal tt, {| text := c; playing := playing e; broken := broken e |})
    | _ => (Throw (EditorError "setCode: not a string"), e)
    end;
  evaluate e := (Normal tt, {| text := text e; playing := true; broken := broken e |});
  stop e := (Normal tt, {| text := text e; playing := false; broken := broken e |});
  code e := if broken e then Throw (EditorError "code: unavailable") else Normal (text e);
  getCode e :=
    (if broken e then Throw (EditorError "getCode: unavailable") else Normal (text e), e);
|}.

Definition dq : string := String "034" "".

Definition hex_digit (n : nat) : ascii :=
  ascii_of_nat (if (n <? 10)%nat then 48 + n else 87 + n).

(** One character of a JSON string literal. *)
Definition escape (c : ascii) : string :=
  let n := nat_of_ascii c in
  if (n =? 34)%nat then "\" ++ dq
  else if (n =? 92)%nat then "\\"
  else if (n =? 8)%nat then "\b"
  else if (n =? 9)%nat then "\t"
  else if (n =? 10)%nat then "\n"
  else if (n =? 12)%nat then "\f"
  else if (n =? 13)%nat then "\r"
  else if (n <? 32)%nat
       then "\u00" ++ String (hex_digit (n / 16)) (String (hex_digit (n mod 16)) "")
  else String c "".

Fixpoint escape_all (s : string) : string :=
  match s with
  | EmptyString => ""
  | String c rest => escape c ++ escape_all rest
  end.

Definition quote (s : string) : string := dq ++ escape_all s ++ dq.

Definition is_undefined (v : value) : bool :=
  match v with VUndefined => true | _ => false end.

(** [JSON.stringify] on a value: a property whose value is [undefined] is
    left out, an [undefined] array item is written [null]. *)
Fixpoint stringify (v : value) : string :=
  match v with
  | VUndefined | VNull => "null"
  | VBool true => "true"
  | VBool false => "false"
  | VNum n => NilZero.string_of_int (Z.to_int n)
  | VStr s => quote s
  | VArr items => "[" ++ String.concat "," (map stringify items) ++ "]"
  | VObj fields =>
      "{" ++ String.concat ","
               (flat_map (fun '(k, v) =>
                            if is_undefined v then []
                            else [quote k ++ ":" ++ stringify v]) fields)
          ++ "}"
  end.

(** The messages of the examples of the protocol. *)
Definition strudel_code_message : value :=
  VObj [("type", VStr "strudel-code"); ("code", VStr "s(bd sn)")].
Definition described_message : value :=
  VObj [("type", VStr "strudel-code"); ("code", VStr "s(bd sn)");
        ("metadata", VObj [("description", VStr "a drum loop")])].
Definition stop_message : value := VObj [("type", VStr "strudel-stop")].
Definition get_current_code_message : value :=
  VObj [("type", VStr "get-current-code"); ("request_id", VStr "r1")].
Definition ping_message : value := VObj [("type", VStr "ping")].
Definition unknown_message : value := VObj [("type", VStr "hello")].

Definition messages : list value :=
  [strudel_code_message; described_message; stop_message;
   get_current_code_message; ping_message; unknown_message; VNull].

(** A parser that knows the texts of [messages] and takes any other text
    for malformed. *)
#[export] Instance SampleJSON : JSON := {|
  JSON_parse frame := find (fun v => String.eqb (stringify v) frame) messages;
  JSON_stringify := stringify;
|}.

Definition localhost (p : string) : Location :=
  {| protocol := "http:"; host := "localhost:" ++ p; port := p |}.

Definition editor : TextEditor :=
  {| text := "note(c e g)"; playing := false; broken := false |}.

Definition broken_editor : TextEditor :=
  {| text := ""; playing := false; broken := true |}.

(** The page served on port 8080, at time 1000. *)
Definition page (e : option TextEditor) : State TextEditor :=
  initial (localhost "8080") 1000 e.

(** The hook mounts with session id [abc7] and its socket opens. *)
Definition opening : list (Event TextEditor) := [Mount "abc" 7; SocketOpen 0].

Definition connected (e : option TextEditor) : State TextEditor :=
  after UseWebSocketMCP.hook (page e) opening.

(** The frames of the examples. *)
Definition pong : string := stringify (VObj [("type", VStr "pong")]).
Definition request : string := stringify get_current_code_message.

Definition session_url : string := "ws://localhost:8080/strudel/ws?session_id=abc7".

(** The component unmounts while its channel is open. *)
Definition unmounted : State TextEditor :=
  after UseWebSocketMCP.hook (page None) (opening ++ [Unmount]).

(** The channel fails, and the component unmounts one second later, while
    the reconnect timer is pending. *)
Definition unmounted_while_waiting : State TextEditor :=
  after UseWebSocketMCP.hook (page None)
    (opening ++ [SocketClose 0 true; Elapse 1000; Unmount]).

End Sample.

(** ** Further notions used by the properties *)

(** The frame parses to a message of type [get-current-code]. *)
Definition is_request `{JSON} (frame : string) : bool :=
  match JSON_parse frame with
  | Some data =>
      match get data "type" with
      | Normal type => is_string type "get-current-code"
      | Throw _ => false
      end
  | None => false
  end.

(** The two copies of [connectWebSocket] take the same decision on the
    page. *)
Definition same_gate (loc : Location) : Prop :=
  UseWebSocketMCP.isMCPServer loc = Part001.isMCPServer loc.

(** The callback leaves [window.location] and [editorRef.current] alone. *)
Definition keeps_page {E : Type} : State E -> State E -> list Action -> Prop :=
  fun s s' _ => location s' = location s /\ editorRef s' = editorRef s.

(** The turn runs the effect that publishes [window.strudelMCP], and the
    effect passes its gate (the gate is the same expression in both
    copies). *)
Definition publishes {E : Type} (s : State E) (ev : Event E) : bool :=
  match ev with
  | Mount _ _ =>
      String.eqb (sessionId s) ""
      && (UseWebSocketMCP.isMCPServer_global (location s) && editor_attached s)
  | Render => UseWebSocketMCP.isMCPServer_global (location s) && editor_attached s
  | _ => false
  end.

(** [api] with the function [f] as its [getCode]. *)
Definition with_getCode (f : Closure) (api : StrudelMCP) : StrudelMCP :=
  {| mcp_setCode := mcp_setCode api; mcp_play := mcp_play api; mcp_stop := mcp_stop api;
     mcp_getCode := f;
     mcp_sessionId := mcp_sessionId api;
     mcp_connectionStatus := mcp_connectionStatus api |}.

(** The outcome of a turn, with [f] as the [getCode] of the object in
    [window.strudelMCP] and of every object the turn published. *)
Definition republish {E : Type} (f : Closure) (o : State E * list Action)
  : State E * list Action :=
  (with_strudelMCP (option_map (with_getCode f) (strudelMCP (fst o))) (fst o),
   map (fun a => match a with
                 | Publish api => Publish (with_getCode f api)
                 | _ => a
                 end) (snd o)).

(** Between two turns the status follows the channel: it is
    ['disconnected'] while a socket is CONNECTING, ['connected'] while a
    socket is OPEN, and ['connected'] only while the socket behind
    [wsRef.current] is open or is closing after it was open. *)
Record status_follows_channel {E : Type} (s : State E) : Prop := {
  status_values :
    connectionStatus s = "disconnected" \/ connectionStatus s = "connected";
  while_connecting : forall i ws,
    sockets s !! i = Some ws -> readyState ws = CONNECTING ->
    connectionStatus s = "disconnected";
  while_open : forall i ws,
    sockets s !! i = Some ws -> readyState ws = OPEN ->
    connectionStatus s = "connected";
  connected_channel :
    connectionStatus s = "connected" ->
    exists i ws, wsRef s = Some i /\ sockets s !! i = Some ws
                 /\ (readyState ws = OPEN \/ readyState ws = CLOSING);
}.

(** The callback does not take [window.strudelMCP] away. *)
Definition stays_published {E : Type} : State E -> State E -> list Action -> Prop :=
  fun s s' _ => strudelMCP s <> None -> strudelMCP s' <> None.

(** Every socket of the hook was opened on the URL of the page's host and
    of the current session id. *)
Definition carries_session {E : Type} (loc : Location) (s : State E) : Prop :=
  location s = loc
  /\ Forall (fun ws => url ws = UseWebSocketMCP.wsUrl loc (sessionId s)) (sockets s).

(** An editor that refuses every change: [setCode] throws. *)
Module Frozen.

Record FrozenEditor : Type := { frozen_text : string }.

#[export] Instance FrozenEditor_adapter : EditorAdapter FrozenEditor := {|
  setCode _ e := (Throw (EditorError "setCode: read-only"), e);
  evaluate e := (Normal tt, e);
  stop e := (Normal tt, e);
  code e := Normal (frozen_text e);
  getCode e := (Normal (frozen_text e), e);
|}.

Definition frozen : FrozenEditor := {| frozen_text := "s(hh)" |}.

(** The page of port 8080 with the frozen editor attached, before the hook
    mounts. *)
Definition frozen_page : State FrozenEditor :=
  initial (Sample.localhost "8080") 1000 (Some frozen).

End Frozen.

(** More pages for the examples. *)
Module Pages.
Import Sample Frozen.

(** The page of port 8080 with an editor, unmounted while its channel was
    open: the socket is CLOSING. *)
Definition closing : State TextEditor :=
  after UseWebSocketMCP.hook (page (Some editor)) (opening ++ [Unmount]).

(** Two failed connections after the first. *)
Definition third_attempt : State TextEditor :=
  after UseWebSocketMCP.hook (connected None) (retries 0 2).

(** The development server, port 4321. *)
Definition dev_page : State TextEditor := initial (localhost "4321") 0 (Some editor).

(** The page of port 8080 with the frozen editor, mounted with session id
    [abc7], its socket open. *)
Definition frozen_connected : State FrozenEditor :=
  after UseWebSocketMCP.hook frozen_page [Mount "abc" 7; SocketOpen 0].

End Pages.

(** * Properties *)

(** ** Composition rules *)

Section Rules.
Context {E : Type}.
Variable R : State E -> State E -> list Action -> Prop.
Hypothesis R_refl : forall s, R s s [].
Hypothesis R_trans : forall s s1 s2 t1 t2,
  R s s1 t1 -> R s1 s2 t2 -> R s s2 (t1 ++ t2)%list.

Lemma respects_ret {A} (a : A) : respects R (ret a).
Proof. intros s. apply R_refl. Qed.

Lemma respects_throw {A} (e : exn) : respects R (throw (A:=A) e).
Proof. intros s. apply R_refl. Qed.

Lemma respects_lift {A} (c : completion A) : respects R (lift c).
Proof. intros s. apply R_refl. Qed.

Lemma respects_gets {A} (f : State E -> A) : respects R (gets f).
Proof. intros s. apply R_refl. Qed.

Lemma respects_bind {A B} (m : M A) (f : A -> M B) :
  respects R m -> (forall a, respects R (f a)) -> respects R (bind m f).
Proof.
  intros Hm Hf s. specialize (Hm s).
  unfold final, trace, bind in *.
  destruct (m s) as [[[a|e] s1] t1]; cbn in *.
  - specialize (Hf a s1). unfold final, trace in Hf.
    destruct (f a s1) as [[r s2] t2]; cbn in *. eauto.
  - exact Hm.
Qed.

Lemma respects_try_catch {A} (m : M A) (handler : exn -> M A) :
  respects R m -> (forall e, respects R (handler e)) ->
  respects R (try_catch m handler).
Proof.
  intros Hm Hh s. specialize (Hm s).
  unfold final, trace, try_catch in *.
  destruct (m s) as [[[a|e] s1] t1]; cbn in *.
  - exact Hm.
  - specialize (Hh e s1). unfold final, trace in Hh.
    destruct (handler e s1) as [[r s2] t2]; cbn in *. eauto.
Qed.

Lemma respects_when (c : bool) (m : M unit) :
  respects R m -> respects R (when c m).
Proof. intros Hm. destruct c; [exact Hm | apply respects_ret]. Qed.

Lemma respects_if {A} (c : bool) (m1 m2 : M A) :
  respects R m1 -> respects R m2 -> respects R (if c then m1 else m2).
Proof. destruct c; auto. Qed.

End Rules.

(** ** What the message handlers leave alone *)

Section HandlerFrame.
Context {E : Type} `{EditorAdapter E} `{JSON}.
Implicit Type s : State E.

Lemma only_editor_refl allowed s : only_editor (E:=E) allowed s s [].
Proof. split; [now destruct s | reflexivity]. Qed.

Lemma only_editor_trans allowed s s1 s2 t1 t2 :
  only_editor (E:=E) allowed s s1 t1 -> only_editor allowed s1 s2 t2 ->
  only_editor allowed s s2 (t1 ++ t2)%list.
Proof.
  intros [H1 F1] [H2 F2]. split.
  - rewrite H2, H1. reflexivity.
  - rewrite forallb_app, F1, F2. reflexivity.
Qed.

Lemma handler_console l text args :
  respects (only_editor handler_action) (console (E:=E) l text args).
Proof. intros s. split; [now destruct s | reflexivity]. Qed.

Lemma handler_ws_send frame :
  respects (only_editor handler_action) (ws_send (E:=E) frame).
Proof.
  intros s. unfold final, trace, ws_send.
  destruct (current_socket s) as [[i [u []]]|]; cbn;
    (split; [now destruct s | reflexivity]).
Qed.

Lemma handler_editor_method c f :
  respects (only_editor handler_action) (editor_method (E:=E) c f).
Proof.
  intros s. unfold final, trace, editor_method.
  destruct (editorRef s) as [e|] eqn:He; cbn.
  - destruct (f e) as [r e']; cbn. split; [now destruct s | reflexivity].
  - split; [now destruct s | reflexivity].
Qed.

Lemma handler_editor_code :
  respects (only_editor handler_action) (editor_code (E:=E)).
Proof.
  intros s. unfold final, trace, editor_code.
  destruct (editorRef s) as [e|]; cbn; (split; [now destruct s | reflexivity]).
Qed.

Lemma handler_editor_getCode :
  respects (only_editor handler_action) (editor_getCode (E:=E)).
Proof.
  intros s. unfold final, trace, editor_getCode.
  destruct (editorRef s) as [e|]; cbn.
  - destruct (getCode e) as [r e']; cbn. split; [now destruct s | reflexivity].
  - split; [now destruct s | reflexivity].
Qed.

End HandlerFrame.

Ltac handler_frame :=
  cbv zeta;
  repeat (intros; first
    [ apply handler_console
    | apply handler_ws_send
    | apply handler_editor_method
    | apply handler_editor_code
    | apply handler_editor_getCode
    | apply (respects_ret (only_editor handler_action) (only_editor_refl _))
    | apply (respects_lift (only_editor handler_action) (only_editor_refl _))
    | apply (respects_gets (only_editor handler_action) (only_editor_refl _))
    | apply (respects_when (only_editor handler_action) (only_editor_refl _))
    | apply respects_if
    | apply (respects_bind (only_editor handler_action) (only_editor_trans _))
    | apply (respects_try_catch (only_editor handler_action) (only_editor_trans _)) ]).

Section HandlersRespect.
Context {E : Type} `{EditorAdapter E} `{JSON}.

Lemma sendCurrentCodeToServer_frame requestId :
  respects (only_editor handler_action)
    (UseWebSocketMCP.sendCurrentCodeToServer (E:=E) requestId).
Proof. unfold UseWebSocketMCP.sendCurrentCodeToServer, Date_now. handler_frame. Qed.

Lemma onmessage_frame data :
  respects (only_editor handler_action) (UseWebSocketMCP.onmessage (E:=E) data).
Proof.
  unfold UseWebSocketMCP.onmessage, editor_setCode, editor_evaluate, editor_stop.
  handler_frame.
Qed.

Lemma Part001_sendCurrentCodeToServer_frame requestId :
  respects (only_editor handler_action)
    (Part001.sendCurrentCodeToServer (E:=E) requestId).
Proof. unfold Part001.sendCurrentCodeToServer, Date_now. handler_frame. Qed.

Lemma Part001_onmessage_frame data :
  respects (only_editor handler_action) (Part001.onmessage (E:=E) data).
Proof.
  unfold Part001.onmessage, editor_setCode, editor_evaluate, editor_stop.
  handler_frame.
Qed.

End HandlersRespect.

(** ** One live channel

    The invariant behind "the socket that delivers a message is the socket
    the handler answers on". *)

Ltac callbacks :=
  unfold final, result, trace,
    UseWebSocketMCP.mount, UseWebSocketMCP.effect_connect,
    UseWebSocketMCP.effect_connect_cleanup, UseWebSocketMCP.effect_session,
    UseWebSocketMCP.effect_global, UseWebSocketMCP.connectWebSocket,
    UseWebSocketMCP.onopen, UseWebSocketMCP.onclose, UseWebSocketMCP.onerror,
    setSessionId, setConnectionStatus, setTimeout, editor_attached,
    bind, gets, when, modify, emit, ret, console, new_WebSocket, ws_close.

Section OneChannel.
Context {E : Type} `{EditorAdapter E} `{JSON}.
Implicit Type s : State E.
Import UseWebSocketMCP.

Lemma generateSessionId_nonempty letters digit :
  String.eqb (generateSessionId letters digit) "" = false.
Proof. unfold generateSessionId. destruct letters; reflexivity. Qed.

Lemma connectWebSocket_final s :
  final connectWebSocket s =
    if isMCPServer (location s)
    then with_wsRef (Some (length (sockets s)))
           (with_sockets (sockets s ++ [{| url := wsUrl (location s) (sessionId s);
                                           readyState := CONNECTING |}]) s)
    else s.
Proof.
  unfold final, connectWebSocket, bind, gets, console, emit, new_WebSocket.
  destruct (isMCPServer (location s)); cbn; [reflexivity | reflexivity].
Qed.

Lemma effect_global_final s :
  final effect_global s = with_strudelMCP (strudelMCP (final effect_global s)) s.
Proof.
  unfold final, effect_global, bind, gets, when, modify, emit, ret.
  destruct (isMCPServer_global (location s) && editor_attached s); cbn; now destruct s.
Qed.

Lemma mount_final s letters digit :
  sessionId s = "" -> wsRef s = None ->
  exists g, final (mount letters digit) s =
    with_strudelMCP g
      (final connectWebSocket (with_sessionId (generateSessionId letters digit) s)).
Proof.
  intros Hid Hw.
  destruct (isMCPServer_global (location s)) eqn:Hg, (editorRef s) eqn:He,
    (isMCPServer (location s)) eqn:Hc.
  all: callbacks.
  all: repeat (cbn; rewrite ?Hg, ?He, ?Hc, ?Hid, ?Hw, ?generateSessionId_nonempty).
  all: eauto.
Qed.

Lemma one_channel_strudelMCP g s : one_channel s -> one_channel (with_strudelMCP g s).
Proof. intros [Hb Hl Ht]. split; assumption. Qed.

Lemma one_channel_editorRef e s : one_channel s -> one_channel (with_editorRef e s).
Proof. intros [Hb Hl Ht]. split; assumption. Qed.

Lemma one_channel_connectionStatus st s :
  one_channel s -> one_channel (with_connectionStatus st s).
Proof. intros [Hb Hl Ht]. split; assumption. Qed.

Lemma one_channel_now t s : one_channel s -> one_channel (with_now t s).
Proof. intros [Hb Hl Ht]. split; assumption. Qed.

(** Opening a channel when none is live and no reconnect is pending. *)
Lemma one_channel_connect s :
  sessionId s <> "" -> timers s = [] ->
  (forall i ws, sockets s !! i = Some ws -> readyState ws = CLOSED) ->
  one_channel (final connectWebSocket s).
Proof.
  intros Hid Htm Hclosed. rewrite connectWebSocket_final.
  destruct (isMCPServer (location s)).
  - split; cbn.
    + intros; contradiction.
    + intros i ws Hi Hlive. split; [|assumption].
      destruct (decide (i < length (sockets s))%nat) as [Hlt|Hge].
      * rewrite lookup_app_l in Hi by assumption.
        apply Hclosed in Hi. contradiction.
      * apply lookup_lt_Some in Hi. rewrite length_app in Hi. cbn in Hi.
        f_equal. lia.
    + rewrite Htm. cbn. lia.
  - split.
    + intros; contradiction.
    + intros i ws Hi Hlive. apply Hclosed in Hi. contradiction.
    + rewrite Htm. cbn. lia.
Qed.

Lemma one_channel_insert i ws ws' s :
  one_channel s -> sockets s !! i = Some ws ->
  (readyState ws' <> CLOSED -> readyState ws <> CLOSED) ->
  one_channel (with_sockets (<[i := ws']> (sockets s)) s).
Proof.
  intros [Hb Hl Ht] Hi Hlive. split; cbn.
  - intros Hid. destruct (Hb Hid) as (Hs & _). rewrite Hs in Hi. discriminate.
  - intros j wj Hj Hlj. destruct (decide (i = j)) as [->|Hne].
    + rewrite list_lookup_insert_eq in Hj by (eapply lookup_lt_Some; eassumption).
      injection Hj as <-. eauto.
    + rewrite list_lookup_insert_ne in Hj by assumption. eauto.
  - assumption.
Qed.

Lemma ws_close_final s :
  final ws_close s =
    match current_socket s with
    | Some (i, ws) =>
        match readyState ws with
        | CONNECTING | OPEN =>
            with_sockets (<[i := {| url := url ws; readyState := CLOSING |}]> (sockets s)) s
        | _ => s
        end
    | None => s
    end.
Proof.
  unfold final, ws_close. destruct (current_socket s) as [[i [u []]]|]; reflexivity.
Qed.

Lemma current_socket_lookup s i ws :
  current_socket s = Some (i, ws) -> sockets s !! i = Some ws.
Proof.
  unfold current_socket. destruct (wsRef s) as [j|]; [|discriminate].
  destruct (sockets s !! j) eqn:Hj; [|discriminate]. congruence.
Qed.

Lemma effect_connect_cleanup_final s :
  final effect_connect_cleanup s = final ws_close s.
Proof.
  unfold final, effect_connect_cleanup, bind, gets, when, ret, ws_close, current_socket.
  destruct (wsRef s) as [i|] eqn:Hw; cbn; rewrite ?Hw; [|reflexivity].
  destruct (sockets s !! i) as [[u []]|]; reflexivity.
Qed.

Lemma socket_handlers_final (failed : bool) s :
  final (when failed onerror ;; onclose) s =
    with_timers (timers s ++ [{| due := (now s + 3000)%Z; callback := ConnectWebSocket |}])
      (with_connectionStatus "disconnected" s).
Proof. destruct failed; reflexivity. Qed.

Lemma one_channel_step s ev s' t :
  one_channel s -> step hook s ev = Some (s', t) -> one_channel s'.
Proof.
  intros Hinv Hstep. pose proof Hinv as [Hb Hl Ht]. destruct ev; cbn in Hstep.
  - (* Mount *)
    destruct (String.eqb (sessionId s) "") eqn:Hid; [|discriminate].
    apply String.eqb_eq in Hid. destruct (Hb Hid) as (Hs & Htm & Hw).
    injection Hstep as <- _.
    destruct (mount_final s letters digit Hid Hw) as [g ->].
    apply one_channel_strudelMCP, one_channel_connect; cbn.
    + intros Heq. pose proof (generateSessionId_nonempty letters digit) as Hne.
      rewrite Heq in Hne. discriminate.
    + assumption.
    + intros i ws. rewrite Hs. discriminate.
  - (* Render *)
    injection Hstep as <- _. rewrite effect_global_final.
    now apply one_channel_strudelMCP.
  - (* Unmount *)
    injection Hstep as <- _. rewrite effect_connect_cleanup_final, ws_close_final.
    destruct (current_socket s) as [[i ws]|] eqn:Hc; [|assumption].
    apply current_socket_lookup in Hc.
    destruct (readyState ws) eqn:Hr; try assumption.
    all: eapply one_channel_insert; eauto; intros _; congruence.
  - (* SocketOpen *)
    destruct (sockets s !! sock) as [[u []]|] eqn:Hi; try discriminate.
    injection Hstep as <- _. unfold set_readyState. rewrite Hi.
    change (final (onopen u) ?x) with (with_connectionStatus "connected" x).
    apply one_channel_connectionStatus.
    eapply one_channel_insert; eauto.
  - (* SocketMessage *)
    destruct (sockets s !! sock) as [[u []]|] eqn:Hi; try discriminate.
    injection Hstep as <- _.
    destruct (onmessage_frame data s) as [-> _].
    now apply one_channel_editorRef.
  - (* SocketClose *)
    destruct (sockets s !! sock) as [ws|] eqn:Hi; [|discriminate].
    assert (readyState ws <> CLOSED) as Hlive by (destruct ws as [u []]; try discriminate; cbn; congruence).
    assert (Some (final (when failed onerror;; onclose) (set_readyState sock CLOSED s), trace (when failed onerror;; onclose) (set_readyState sock CLOSED s)) = Some (s', t)) as Hstep'
      by (destruct ws as [u []]; try discriminate; exact Hstep).
    clear Hstep. injection Hstep' as <- _.
    rewrite socket_handlers_final. unfold set_readyState. rewrite Hi.
    destruct (Hl _ _ Hi Hlive) as [Hw Htm].
    split; cbn.
    + intros Hid. destruct (Hb Hid) as (Hs & _). rewrite Hs in Hi. discriminate.
    + intros j wj Hj Hlj. destruct (decide (sock = j)) as [->|Hne].
      * rewrite list_lookup_insert_eq in Hj by (eapply lookup_lt_Some; eassumption).
        injection Hj as <-. cbn in Hlj. congruence.
      * rewrite list_lookup_insert_ne in Hj by assumption.
        destruct (Hl _ _ Hj Hlj) as [Hw' _]. congruence.
    + rewrite Htm. cbn. lia.
  - (* TimerFires *)
    destruct (timers s !! k) as [tm|] eqn:Hk; [|discriminate].
    destruct (due tm <=? now s)%Z; [|discriminate].
    injection Hstep as <- _. destruct tm as [d []]. cbn.
    destruct (timers s) as [|t0 [|t1 rest]] eqn:Htm; cbn in Ht; [discriminate| |lia].
    destruct k as [|k]; [|discriminate]. cbn.
    apply one_channel_connect; cbn.
    + intros Hid. destruct (Hb Hid) as (_ & Hnil & _). discriminate.
    + reflexivity.
    + intros i ws Hi. destruct (readyState ws) eqn:Hr; try reflexivity.
      all: destruct (Hl i ws Hi) as [_ Hnil]; [congruence | discriminate].
  - (* Elapse *)
    destruct (0 <=? ms)%Z; [|discriminate]. injection Hstep as <- _.
    now apply one_channel_now.
  - injection Hstep as <- _. now apply one_channel_editorRef.
  - injection Hstep as <- _. now apply one_channel_editorRef.
Qed.

Lemma one_channel_initial loc t0 (ed : option E) : one_channel (initial loc t0 ed).
Proof. split; cbn; [auto | intros i ws Hi; discriminate | lia]. Qed.

Theorem one_channel_reachable s0 s :
  one_channel s0 -> reachable hook s0 s -> one_channel s.
Proof.
  intros H0' Hr. induction Hr as [|s ev s' t Hr IH Hstep]; [assumption|].
  eapply one_channel_step; eauto.
Qed.

End OneChannel.

(** ** Message handling *)

Ltac handlers :=
  unfold UseWebSocketMCP.onmessage, UseWebSocketMCP.sendCurrentCodeToServer,
    Part001.onmessage, Part001.sendCurrentCodeToServer,
    editor_setCode, editor_evaluate, editor_stop, editor_method, editor_code, editor_getCode,
    Date_now, try_catch, bind, lift, gets, when, ret, console, emit, ws_send.

Section Messages.
Context {E : Type} `{EditorAdapter E} `{JSON}.
Implicit Type s : State E.
Import UseWebSocketMCP.

Lemma message_type_get data tag :
  message_type data = Some tag ->
  exists fields, data = VObj fields /\ own_property "type" fields = VStr tag.
Proof.
  destruct data as [| | | | |items|fields]; try discriminate. cbn.
  destruct (own_property "type" fields) eqn:Ht; try discriminate.
  intros [= ->]. eauto.
Qed.

Lemma ws_is_open_current s :
  ws_is_open s = true ->
  exists i u, current_socket s = Some (i, {| url := u; readyState := OPEN |}).
Proof.
  unfold ws_is_open. destruct (current_socket s) as [[i [u []]]|]; try discriminate. eauto.
Qed.

Lemma receiving_socket_is_current s i ws :
  one_channel s -> sockets s !! i = Some ws -> readyState ws = OPEN ->
  current_socket s = Some (i, ws).
Proof.
  intros Hinv Hi Hr. destruct (live_is_current s Hinv i ws Hi) as [Hw _]; [congruence|].
  unfold current_socket. rewrite Hw, Hi. reflexivity.
Qed.

Lemma onmessage_ping s frame data i ws :
  JSON_parse frame = Some data -> message_type data = Some "ping" ->
  current_socket s = Some (i, ws) -> readyState ws = OPEN ->
  onmessage frame s =
    (Normal tt, s, [Console Log "WebSocket received message:" [AValue data];
                    Send i (JSON_stringify (VObj [("type", VStr "pong")]))]).
Proof.
  intros Hp Ht Hc Hr. apply message_type_get in Ht as (fields & -> & Ht).
  handlers. rewrite Hp. cbn. rewrite Ht. cbn. rewrite Hc, Hr. reflexivity.
Qed.

(** C9: in every state the hook can reach, a [ping] message delivered on
    socket [i] makes the handler send exactly one frame, [{type: 'pong'}]
    and nothing else in it, on socket [i]; it calls no editor method and
    changes nothing, whether or not an editor is attached. *)
Theorem ping_yields_one_pong loc t0 ed s i frame data s' t :
  reachable hook (initial loc t0 ed) s ->
  step hook s (SocketMessage i frame) = Some (s', t) ->
  JSON_parse frame = Some data -> message_type data = Some "ping" ->
  sent t = [(i, JSON_stringify (VObj [("type", VStr "pong")]))]
  /\ editor_calls t = [] /\ s' = s.
Proof.
  intros Hr Hstep Hp Ht.
  apply (one_channel_reachable _ _ (one_channel_initial loc t0 ed)) in Hr.
  cbn in Hstep. destruct (sockets s !! i) as [ws|] eqn:Hi; [|discriminate].
  destruct (readyState ws) eqn:Hrs.
  all: destruct ws as [u r]; cbn in Hrs; subst r; try discriminate.
  injection Hstep as <- <-.
  unfold final, trace.
  erewrite onmessage_ping; eauto using receiving_socket_is_current.
Qed.

Lemma sendCurrentCodeToServer_open s requestId i ws :
  current_socket s = Some (i, ws) -> readyState ws = OPEN ->
  result (sendCurrentCodeToServer requestId) s = Normal tt
  /\ final (sendCurrentCodeToServer requestId) s = s
  /\ sent (trace (sendCurrentCodeToServer requestId) s) =
       [(i, JSON_stringify (current_code_response requestId (expected_code s) (now s)))].
Proof.
  intros Hc Hr.
  assert (ws_is_open s = true) as Ho by (unfold ws_is_open; rewrite Hc; destruct ws; cbn in *; now subst).
  unfold result, final, trace, expected_code. handlers. unfold editor_attached.
  destruct (editorRef s) as [e|] eqn:He; cbn; rewrite ?He, ?Ho; cbn.
  - destruct (code e) as [c|err] eqn:Hcode; cbn; rewrite ?Ho; cbn; rewrite Hc, Hr; cbn.
    + unfold str_or_else. destruct c; cbn; auto.
    + auto.
  - rewrite Hc, Hr. cbn. auto.
Qed.

(** C7: a frame that [JSON.parse] rejects, and a parsed message whose
    [type] is none of the five recognized tags (or that has no [type] at
    all), are handled without an exception leaving the handler, without any
    change of state (sockets, timers and status included) and without any
    action but console output; the malformed frame is logged with
    [console.error]. *)
Theorem malformed_or_unknown_frame_is_dropped s frame :
  match JSON_parse frame with
  | None => True
  | Some data =>
      match get data "type" with
      | Normal type => recognized type = false
      | Throw _ => True
      end
  end ->
  result (onmessage frame) s = Normal tt
  /\ final (onmessage frame) s = s
  /\ effects (trace (onmessage frame) s) = []
  /\ (JSON_parse frame = None ->
      trace (onmessage frame) s =
        [Console Error "WebSocket message error:" [AExn SyntaxError]]).
Proof.
  unfold result, final, trace. handlers.
  destruct (JSON_parse frame) as [data|] eqn:Hp; cbn.
  - destruct (get data "type") as [type|e] eqn:Ht; cbn.
    + unfold recognized. intros Hrec.
      repeat (apply orb_false_elim in Hrec as [Hrec ?]).
      rewrite Hrec. cbn.
      repeat match goal with Hx : is_string type _ = false |- _ => rewrite Hx; clear Hx end.
      cbn. repeat split; try reflexivity. discriminate.
    + intros _. repeat split; try reflexivity. discriminate.
  - intros _. repeat split; reflexivity.
Qed.

(** C10: on a message of type [strudel-code], [strudel-stop], [stop] or
    [ping], the handler of [useWebSocketMCP.jsx] and the handler of
    [part_001] have the same outcome from the same state: the same editor
    calls in the same order, the same frames sent, the same final state. *)
Theorem duplicate_handlers_agree s frame data tag :
  JSON_parse frame = Some data -> message_type data = Some tag ->
  tag = "strudel-code" \/ tag = "strudel-stop" \/ tag = "stop" \/ tag = "ping" ->
  UseWebSocketMCP.onmessage frame s = Part001.onmessage frame s.
Proof.
  intros Hp Ht Htag. apply message_type_get in Ht as (fields & -> & Ht).
  unfold UseWebSocketMCP.onmessage, Part001.onmessage, try_catch, bind, lift at 1 3.
  rewrite Hp. cbn. rewrite Ht.
  destruct Htag as [ -> | [ -> | [ -> | -> ] ] ]; reflexivity.
Qed.

Lemma get_opt_normal v k : exists d, get_opt v k = Normal d.
Proof. destruct v; cbn; eauto. Qed.

Lemma onmessage_strudel_code s frame data c e :
  JSON_parse frame = Some data -> message_type data = Some "strudel-code" ->
  get data "code" = Normal c -> editorRef s = Some e ->
  onmessage frame s =
    let logs := [Console Log "WebSocket received message:" [AValue data];
                 Console Log "Processing strudel-code message:" [AValue data]] in
    match setCode c e with
    | (Normal _, e1) =>
        match evaluate e1 with
        | (Normal _, e2) =>
            (Normal tt, with_editorRef (Some e2) (with_editorRef (Some e1) s),
             logs ++ [Editor (CallSetCode c); Editor CallEvaluate;
                      Console Log "Pattern playing" []])
        | (Throw err, e2) =>
            (Normal tt, with_editorRef (Some e2) (with_editorRef (Some e1) s),
             logs ++ [Editor (CallSetCode c); Editor CallEvaluate;
                      Console Error "WebSocket message error:" [AExn err]])
        end
    | (Throw err, e1) =>
        (Normal tt, with_editorRef (Some e1) s,
         logs ++ [Editor (CallSetCode c);
                  Console Error "WebSocket message error:" [AExn err]])
    end%list.
Proof.
  intros Hp Ht Hc He. apply message_type_get in Ht as (fields & -> & Ht).
  cbn in Hc. injection Hc as <-.
  handlers. unfold editor_attached. rewrite Hp. cbn. rewrite Ht. cbn.
  destruct (get_opt_normal (own_property "metadata" fields) "description") as [d ->].
  cbn. rewrite !He. cbn.
  destruct (setCode (own_property "code" fields) e) as [[[]|err] e1]; cbn; [|reflexivity].
  destruct (evaluate e1) as [[[]|err] e2]; reflexivity.
Qed.

(** C8, amended: on a [strudel-code] message with an editor attached, the
    first editor call is [setCode] with the [code] field of the message;
    when [setCode] returns, [evaluate] is called next and nothing else; when
    [setCode] throws, [evaluate] is not called; no frame is sent; and two
    such messages with the same [code] have the same result, final state and
    actions apart from console output, whatever their [metadata]. *)
Theorem strudel_code_sets_then_evaluates s frame data c e :
  JSON_parse frame = Some data -> message_type data = Some "strudel-code" ->
  get data "code" = Normal c -> editorRef s = Some e ->
  (fst (setCode c e) = Normal tt ->
   editor_calls (trace (onmessage frame) s) = [CallSetCode c; CallEvaluate])
  /\ (forall err, fst (setCode c e) = Throw err ->
      editor_calls (trace (onmessage frame) s) = [CallSetCode c])
  /\ (exists rest, editor_calls (trace (onmessage frame) s) = CallSetCode c :: rest)
  /\ sent (trace (onmessage frame) s) = []
  /\ (forall frame' data',
        JSON_parse frame' = Some data' -> message_type data' = Some "strudel-code" ->
        get data' "code" = Normal c ->
        result (onmessage frame') s = result (onmessage frame) s
        /\ final (onmessage frame') s = final (onmessage frame) s
        /\ effects (trace (onmessage frame') s) = effects (trace (onmessage frame) s)).
Proof.
  intros Hp Ht Hc He.
  pose proof (onmessage_strudel_code s frame data c e Hp Ht Hc He) as Hrun.
  repeat split.
  - intros Hret. unfold trace. rewrite Hrun.
    destruct (setCode c e) as [[[]|err] e1]; [|discriminate].
    destruct (evaluate e1) as [[[]|err] e2]; reflexivity.
  - intros err Hthrow. unfold trace. rewrite Hrun.
    destruct (setCode c e) as [[[]|err'] e1]; [discriminate|reflexivity].
  - unfold trace. rewrite Hrun.
    destruct (setCode c e) as [[[]|err] e1]; [|cbn; eauto].
    destruct (evaluate e1) as [[[]|err] e2]; cbn; eauto.
  - unfold trace. rewrite Hrun.
    destruct (setCode c e) as [[[]|err] e1]; [|reflexivity].
    destruct (evaluate e1) as [[[]|err] e2]; reflexivity.
  - unfold result.
    rewrite Hrun, (onmessage_strudel_code s frame' data' c e) by assumption.
    destruct (setCode c e) as [[[]|err] e1]; [|reflexivity].
    destruct (evaluate e1) as [[[]|err] e2]; reflexivity.
  - unfold final.
    rewrite Hrun, (onmessage_strudel_code s frame' data' c e) by assumption.
    destruct (setCode c e) as [[[]|err] e1]; [|reflexivity].
    destruct (evaluate e1) as [[[]|err] e2]; reflexivity.
  - unfold trace.
    rewrite Hrun, (onmessage_strudel_code s frame' data' c e) by assumption.
    destruct (setCode c e) as [[[]|err] e1]; [|reflexivity].
    destruct (evaluate e1) as [[[]|err] e2]; reflexivity.
Qed.
End Messages.

(** ** Answering [get-current-code] *)

Section Answers.
Context {E : Type} `{EditorAdapter E} `{JSON}.
Implicit Type s : State E.
Import UseWebSocketMCP.

(** C2: while the channel behind [wsRef.current] is open, the answer to a
    request is one frame, sent on that channel: the serialized object with
    [type: 'current-code-response'], the [request_id] of the request, the
    clock at the time of the call as [timestamp], and as [code] the not-ready
    placeholder without an editor, the retrieval-error placeholder when
    reading the code throws, the no-code placeholder for the empty string,
    and otherwise the code read from the editor. *)
Theorem current_code_response_payload s requestId :
  ws_is_open s = true ->
  exists i,
    wsRef s = Some i
    /\ sent (trace (sendCurrentCodeToServer requestId) s) =
         [(i, JSON_stringify
                (VObj [("type", VStr "current-code-response");
                       ("request_id", requestId);
                       ("code", VStr (expected_code s));
                       ("timestamp", VNum (now s))]))].
Proof.
  intros Ho. destruct (ws_is_open_current s Ho) as (i & u & Hc).
  exists i. split.
  - unfold current_socket in Hc. destruct (wsRef s) as [j|]; [|discriminate].
    destruct (sockets s !! j); [|discriminate]. congruence.
  - eapply sendCurrentCodeToServer_open; eauto.
Qed.

Lemma onmessage_get_current_code s frame data requestId :
  JSON_parse frame = Some data -> message_type data = Some "get-current-code" ->
  get data "request_id" = Normal requestId ->
  result (sendCurrentCodeToServer requestId) s = Normal tt ->
  onmessage frame s =
    (Normal tt, final (sendCurrentCodeToServer requestId) s,
     [Console Log "WebSocket received message:" [AValue data];
      Console Log "Sending current editor code to MCP server" []]
     ++ trace (sendCurrentCodeToServer requestId) s)%list.
Proof.
  intros Hp Ht Hrid Hres. apply message_type_get in Ht as (fields & -> & Ht).
  cbn in Hrid. injection Hrid as <-.
  unfold result, final, trace in *. unfold onmessage.
  generalize dependent (sendCurrentCodeToServer (E:=E)). intros send Hres.
  unfold try_catch, bind, lift, console, emit.
  rewrite Hp. cbn. rewrite Ht. cbn.
  destruct (send (own_property "request_id" fields) s) as [[r s1] t1].
  cbn in *. subst r. reflexivity.
Qed.

(** X16: in every state the hook of [useWebSocketMCP.jsx] can reach, a
    [get-current-code] message delivered on socket [i] is answered by
    exactly one frame on socket [i], whatever the editor does: the
    serialized object with [type: 'current-code-response'], the
    [request_id] of the message, the code or the matching placeholder as
    [code], and the clock as [timestamp]. *)
Theorem every_request_is_answered loc t0 ed s i frame data requestId s' t :
  reachable hook (initial loc t0 ed) s ->
  step hook s (SocketMessage i frame) = Some (s', t) ->
  JSON_parse frame = Some data -> message_type data = Some "get-current-code" ->
  get data "request_id" = Normal requestId ->
  sent t = [(i, JSON_stringify
                  (VObj [("type", VStr "current-code-response");
                         ("request_id", requestId);
                         ("code", VStr (expected_code s));
                         ("timestamp", VNum (now s))]))].
Proof.
  intros Hr Hstep Hp Ht Hrid.
  apply (one_channel_reachable _ _ (one_channel_initial loc t0 ed)) in Hr.
  cbn in Hstep. destruct (sockets s !! i) as [ws|] eqn:Hi; [|discriminate].
  destruct (readyState ws) eqn:Hrs.
  all: destruct ws as [u r]; cbn in Hrs; subst r; try discriminate.
  injection Hstep as <- <-.
  pose proof (receiving_socket_is_current s i _ Hr Hi eq_refl) as Hc.
  destruct (sendCurrentCodeToServer_open s requestId i _ Hc eq_refl) as (Hres & _ & Hsent).
  unfold trace at 1. erewrite onmessage_get_current_code by eassumption.
  cbn. exact Hsent.
Qed.

End Answers.

(** ** Reconnecting *)

Section Reconnect.
Context {E : Type} `{EditorAdapter E} `{JSON}.
Implicit Type s : State E.
Import UseWebSocketMCP.

Lemma socket_handlers_trace (failed : bool) s :
  trace (when failed onerror ;; onclose) s =
    ((if failed
      then [Console Error "WebSocket error:" [AEvent]; SetConnectionStatus "error"]
      else [])
     ++ [SetConnectionStatus "disconnected";
         Console Log "WebSocket disconnected, attempting to reconnect..." [];
         SetTimeout ConnectWebSocket 3000])%list.
Proof. destruct failed; reflexivity. Qed.

Lemma step_SocketClose s i failed s1 t :
  step hook s (SocketClose i failed) = Some (s1, t) ->
  exists ws, sockets s !! i = Some ws /\ readyState ws <> CLOSED
  /\ s1 = with_timers (timers s ++ [{| due := (now s + 3000)%Z; callback := ConnectWebSocket |}])
            (with_connectionStatus "disconnected" (set_readyState i CLOSED s))
  /\ t = trace (when failed onerror ;; onclose) (set_readyState i CLOSED s).
Proof.
  cbn. destruct (sockets s !! i) as [ws|] eqn:Hi; [|discriminate].
  intros Hstep. exists ws.
  assert (readyState ws <> CLOSED) as Hlive
    by (destruct ws as [u []]; try discriminate; cbn; congruence).
  assert (turn (when failed onerror ;; onclose) (set_readyState i CLOSED s) = (s1, t)) as Hturn
    by (destruct ws as [u []]; congruence).
  unfold turn in Hturn. injection Hturn as <- <-.
  rewrite socket_handlers_final.
  repeat split; try assumption.
  unfold set_readyState. rewrite Hi. reflexivity.
Qed.

Lemma delete_last_timer (l : list Timer) (x : Timer) : delete (length l) (l ++ [x])%list = l.
Proof. induction l as [|a l IH]; cbn; [reflexivity | f_equal; exact IH]. Qed.

(** Closing a socket, for any reason and in any state, schedules one
    timer, 3000 ms ahead; it cannot fire before, and when it fires it runs
    [connectWebSocket]. *)
Lemma close_schedules_reconnect s i failed s1 t :
  step hook s (SocketClose i failed) = Some (s1, t) ->
  timeouts t = [(ConnectWebSocket, 3000%Z)]
  /\ timers s1 = (timers s ++ [{| due := (now s + 3000)%Z; callback := ConnectWebSocket |}])%list
  /\ forall ms, (0 <= ms)%Z ->
       step hook (with_now (now s + ms) s1) (TimerFires (length (timers s))) =
         if (3000 <=? ms)%Z
         then Some (turn connectWebSocket
                      (with_timers (timers s) (with_now (now s + ms) s1)))
         else None.
Proof.
  intros Hstep. apply step_SocketClose in Hstep as (ws & Hi & Hlive & -> & ->).
  split; [|split].
  - rewrite socket_handlers_trace. destruct failed; reflexivity.
  - unfold set_readyState. rewrite Hi. reflexivity.
  - intros ms Hms. unfold set_readyState. rewrite Hi. cbn.
    rewrite lookup_app_r by lia. rewrite Nat.sub_diag. cbn.
    rewrite delete_last_timer.
    destruct (3000 <=? ms)%Z eqn:Hd.
    + apply Z.leb_le in Hd.
      replace (now s + 3000 <=? now s + ms)%Z with true by (symmetry; apply Z.leb_le; lia).
      reflexivity.
    + apply Z.leb_gt in Hd.
      replace (now s + 3000 <=? now s + ms)%Z with false by (symmetry; apply Z.leb_gt; lia).
      reflexivity.
Qed.

Lemma connectWebSocket_trace s :
  isMCPServer (location s) = true ->
  trace connectWebSocket s =
    [Console Log "Connecting WebSocket with sessionId:" [AString (sessionId s)];
     Console Log "WebSocket URL:" [AString (wsUrl (location s) (sessionId s))];
     NewWebSocket (length (sockets s)) (wsUrl (location s) (sessionId s))].
Proof.
  intros Hg. unfold trace, connectWebSocket, bind, gets, console, emit, new_WebSocket.
  cbn. rewrite Hg. reflexivity.
Qed.

Lemma run_cons (h : Hook E) s ev evs s1 t1 ss t2 :
  step h s ev = Some (s1, t1) -> run h s1 evs = Some (ss, t2) ->
  run h s (ev :: evs) = Some (s1 :: ss, (t1 ++ t2)%list).
Proof. intros H1 H2. cbn. rewrite H1, H2. reflexivity. Qed.

Lemma last_cons_default {A} (l : list A) (a d : A) :
  List.last (a :: l) d = List.last l a.
Proof.
  revert a d. induction l as [|b l IH]; intros a d; [reflexivity|].
  change (List.last (a :: b :: l) d) with (List.last (b :: l) d).
  rewrite (IH b d), (IH b a). reflexivity.
Qed.

(** Failing [n] times in a row gives [n] reconnects, each 3000 ms after
    its failure, for any [n]. *)
Lemma retries_run n : forall s i ws,
  length (sockets s) = S i -> sockets s !! i = Some ws -> readyState ws <> CLOSED ->
  timers s = [] -> isMCPServer (location s) = true ->
  exists ss t,
    run hook s (retries i n) = Some (ss, t)
    /\ timeouts t = repeat (ConnectWebSocket, 3000%Z) n
    /\ map fst (opened t) = seq (S i) n
    /\ length (sockets (List.last ss s)) = (S i + n)%nat.
Proof.
  induction n as [|n IH]; intros s i ws Hlen Hi Hlive Htm Hgate.
  - exists [], []. cbn. repeat split. lia.
  - (* the close *)
    destruct (step hook s (SocketClose i true)) as [[s1 t1]|] eqn:Hclose; cycle 1.
    { cbn in Hclose. rewrite Hi in Hclose. destruct ws as [u []]; try discriminate.
      now contradiction Hlive. }
    destruct (close_schedules_reconnect s i true s1 t1 Hclose) as (Hto & Htimers & Hfire).
    specialize (Hfire 3000%Z ltac:(lia)). change (3000 <=? 3000)%Z with true in Hfire.
    rewrite Htm in Hfire, Htimers. cbn [length app] in Hfire, Htimers.
    pose proof Hclose as Hstep1.
    apply step_SocketClose in Hclose as (ws' & _ & _ & Hs1 & Ht1).
    (* the wait *)
    assert (step hook s1 (Elapse 3000) = Some (with_now (now s + 3000) s1, [])) as Hwait
      by (rewrite Hs1; unfold set_readyState; rewrite Hi; reflexivity).
    (* the reconnect *)
    set (s2 := with_timers [] (with_now (now s + 3000) s1)) in *.
    set (s3 := final connectWebSocket s2).
    assert (location s2 = location s) as Hloc by (subst s2; rewrite Hs1; unfold set_readyState; rewrite Hi; reflexivity).
    assert (length (sockets s2) = S i) as Hlen2.
    { subst s2. rewrite Hs1. unfold set_readyState. rewrite Hi. cbn.
      rewrite length_insert. assumption. }
    assert (timers s2 = []) as Htm2 by reflexivity.
    clearbody s2.
    assert (s3 = with_wsRef (Some (S i))
                   (with_sockets (sockets s2 ++ [{| url := wsUrl (location s2) (sessionId s2);
                                                    readyState := CONNECTING |}]) s2)) as Hs3.
    { subst s3. rewrite connectWebSocket_final, Hloc, Hgate. congruence. }
    destruct (IH s3 (S i) {| url := wsUrl (location s2) (sessionId s2); readyState := CONNECTING |})
      as (ss & t & Hrun & Hto' & Hop' & Hlen').
    + rewrite Hs3. cbn. rewrite length_app, Hlen2. cbn. lia.
    + rewrite Hs3. cbn. rewrite lookup_app_r by lia. rewrite Hlen2, Nat.sub_diag. reflexivity.
    + cbn. congruence.
    + rewrite Hs3. assumption.
    + rewrite Hs3. cbn. rewrite Hloc. assumption.
    + exists (s1 :: with_now (now s + 3000) s1 :: s3 :: ss).
      eexists. split; [|split; [|split]].
      * cbn [retries].
        eapply run_cons; [eassumption|].
        eapply run_cons; [eassumption|].
        eapply run_cons; [exact Hfire|]. exact Hrun.
      * unfold timeouts in *. rewrite !flat_map_app, Hto, Hto'.
        rewrite connectWebSocket_trace by (rewrite Hloc; assumption). reflexivity.
      * unfold opened in *. rewrite !flat_map_app, !map_app, Hop'.
        rewrite connectWebSocket_trace by (rewrite Hloc; assumption).
        rewrite Ht1, socket_handlers_trace, Hlen2. reflexivity.
      * change (List.last (s1 :: with_now (now s + 3000) s1 :: s3 :: ss) s)
          with (List.last (s3 :: ss) s).
        rewrite last_cons_default, Hlen'. lia.
Qed.

(** C3: every close of a socket, clean or not and whatever happened
    before, schedules exactly one reconnect, 3000 ms after the close; the
    timer cannot fire earlier and runs [connectWebSocket] when it fires; and
    on a page that passes the gate, [n] failures in a row are followed by
    [n] reconnects, all with the delay 3000, for every [n]. *)
Theorem reconnect_after_fixed_delay :
  (forall s i failed s1 t,
     step hook s (SocketClose i failed) = Some (s1, t) ->
     timeouts t = [(ConnectWebSocket, 3000)]
     /\ timers s1 =
          (timers s ++ [{| due := now s + 3000; callback := ConnectWebSocket |}])%list
     /\ forall ms, 0 <= ms ->
          step hook (with_now (now s + ms) s1) (TimerFires (length (timers s))) =
            if 3000 <=? ms
            then Some (turn connectWebSocket
                         (with_timers (timers s) (with_now (now s + ms) s1)))
            else None)
  /\ (forall n s i ws,
        length (sockets s) = S i -> sockets s !! i = Some ws ->
        readyState ws <> CLOSED -> timers s = [] ->
        isMCPServer (location s) = true ->
        exists ss t,
          run hook s (retries i n) = Some (ss, t)
          /\ timeouts t = repeat (ConnectWebSocket, 3000) n
          /\ map fst (opened t) = seq (S i) n
          /\ length (sockets (List.last ss s)) = (S i + n)%nat).
Proof.
  split.
  - intros s i failed s1 t. apply close_schedules_reconnect.
  - intros n. apply retries_run.
Qed.

End Reconnect.

(** ** The connection status *)

Section StatusRules.
Context {E : Type} `{EditorAdapter E} `{JSON}.
Implicit Type s : State E.

Lemma status_neutral_refl s : status_neutral s s [].
Proof. split; reflexivity. Qed.

Lemma status_neutral_trans s s1 s2 t1 t2 :
  status_neutral (E:=E) s s1 t1 -> status_neutral s1 s2 t2 ->
  status_neutral s s2 (t1 ++ t2)%list.
Proof.
  intros [H1 T1] [H2 T2]. split; [congruence|].
  unfold statuses in *. rewrite flat_map_app, T1, T2. reflexivity.
Qed.

Lemma status_neutral_ws_close : respects status_neutral (ws_close (E:=E)).
Proof.
  intros s. unfold final, trace, ws_close.
  destruct (current_socket s) as [[i [u []]]|]; split; reflexivity.
Qed.

End StatusRules.

Ltac status_frame :=
  cbv zeta;
  repeat (intros; first
    [ apply status_neutral_ws_close
    | apply (respects_ret status_neutral status_neutral_refl)
    | apply (respects_gets status_neutral status_neutral_refl)
    | apply (respects_when status_neutral status_neutral_refl)
    | apply respects_if
    | apply (respects_bind status_neutral status_neutral_trans)
    | (intros ?; split; reflexivity) ]).

Section Status.
Context {E : Type} `{EditorAdapter E} `{JSON}.
Implicit Type s : State E.
Import UseWebSocketMCP.

Lemma status_neutral_connectWebSocket : respects status_neutral (connectWebSocket (E:=E)).
Proof. unfold connectWebSocket. status_frame. Qed.

Lemma status_neutral_effect_global : respects status_neutral (effect_global (E:=E)).
Proof. unfold effect_global. status_frame. Qed.

Lemma status_neutral_cleanup : respects status_neutral (effect_connect_cleanup (E:=E)).
Proof. unfold effect_connect_cleanup. status_frame. Qed.

Lemma status_neutral_mount letters digit :
  respects status_neutral (mount (E:=E) letters digit).
Proof.
  unfold mount, effect_connect, effect_session.
  status_frame; first [apply status_neutral_connectWebSocket | apply status_neutral_effect_global | apply status_neutral_cleanup].
Qed.

Lemma status_neutral_onmessage data : respects status_neutral (onmessage (E:=E) data).
Proof.
  intros s. destruct (onmessage_frame data s) as [Hs Ht]. split.
  - rewrite Hs. reflexivity.
  - clear Hs. induction (trace (onmessage data) s) as [|a t IH]; [reflexivity|].
    cbn in Ht. apply andb_prop in Ht as [Ha Ht].
    destruct a; try discriminate; cbn; auto.
Qed.

Lemma last_statuses_step s ev s' t :
  step hook s ev = Some (s', t) ->
  statuses t = status_of_event ev
  /\ connectionStatus s' = List.last (statuses t) (connectionStatus s).
Proof.
  intros Hstep. destruct ev; cbn in Hstep.
  - destruct (String.eqb (sessionId s) ""); [|discriminate].
    injection Hstep as <- <-. destruct (status_neutral_mount letters digit s) as [Hs Ht].
    rewrite Ht. auto.
  - injection Hstep as <- <-. destruct (status_neutral_effect_global s) as [Hs Ht].
    rewrite Ht. auto.
  - injection Hstep as <- <-. destruct (status_neutral_cleanup s) as [Hs Ht].
    rewrite Ht. auto.
  - destruct (sockets s !! sock) as [[u []]|]; try discriminate.
    injection Hstep as <- <-. split; reflexivity.
  - destruct (sockets s !! sock) as [[u []]|]; try discriminate.
    injection Hstep as <- <-. destruct (status_neutral_onmessage data s) as [Hs Ht].
    rewrite Ht. auto.
  - apply step_SocketClose in Hstep as (ws & _ & _ & -> & ->).
    rewrite socket_handlers_trace. destruct failed; split; reflexivity.
  - destruct (timers s !! k) as [[d []]|]; [|discriminate].
    cbn in Hstep. destruct (d <=? now s); [|discriminate].
    unfold turn in Hstep. injection Hstep as <- <-.
    destruct (status_neutral_connectWebSocket (with_timers (delete k (timers s)) s)) as [Hs Ht].
    cbn [run_callback callback]. rewrite Ht. auto.
  - destruct (0 <=? ms); [|discriminate]. injection Hstep as <- <-. auto.
  - injection Hstep as <- <-. auto.
  - injection Hstep as <- <-. auto.
Qed.

Lemma follows_strudelMCP g s :
  status_follows_channel s -> status_follows_channel (with_strudelMCP g s).
Proof. intros [Hv Hc Ho Hn]. split; assumption. Qed.

Lemma follows_editorRef e s :
  status_follows_channel s -> status_follows_channel (with_editorRef e s).
Proof. intros [Hv Hc Ho Hn]. split; assumption. Qed.

Lemma follows_now t s : status_follows_channel s -> status_follows_channel (with_now t s).
Proof. intros [Hv Hc Ho Hn]. split; assumption. Qed.

(** With every socket closed the status is ['disconnected']. *)
Lemma follows_all_closed s :
  status_follows_channel s ->
  (forall i ws, sockets s !! i = Some ws -> readyState ws = CLOSED) ->
  connectionStatus s = "disconnected".
Proof.
  intros [Hv _ _ Hn] Hclosed. destruct Hv as [Hv|Hv]; [assumption|].
  destruct (Hn Hv) as (i & ws & _ & Hi & Hr). apply Hclosed in Hi.
  destruct Hr; congruence.
Qed.

(** Opening a channel while every socket is closed. *)
Lemma follows_connect s :
  status_follows_channel s ->
  (forall i ws, sockets s !! i = Some ws -> readyState ws = CLOSED) ->
  status_follows_channel (final connectWebSocket s).
Proof.
  intros Hf Hclosed. pose proof (follows_all_closed s Hf Hclosed) as Hd.
  rewrite connectWebSocket_final.
  destruct (isMCPServer (location s)); [|assumption].
  split; cbn.
  - now left.
  - intros; assumption.
  - intros i ws Hi Hr.
    destruct (decide (i < length (sockets s))%nat) as [Hlt|Hge].
    + rewrite lookup_app_l in Hi by assumption. apply Hclosed in Hi. congruence.
    + rewrite lookup_app_r in Hi by lia.
      destruct (i - length (sockets s))%nat; cbn in Hi; [|discriminate].
      injection Hi as <-. discriminate.
  - rewrite Hd. discriminate.
Qed.

Lemma follows_step s ev s' t :
  one_channel s -> status_follows_channel s ->
  step hook s ev = Some (s', t) -> status_follows_channel s'.
Proof.
  intros Hone Hf Hstep. pose proof Hone as [Hb Hl Ht]. pose proof Hf as [Hv Hc Ho Hn].
  destruct ev; cbn in Hstep.
  - (* Mount *)
    destruct (String.eqb (sessionId s) "") eqn:Hid; [|discriminate].
    apply String.eqb_eq in Hid. destruct (Hb Hid) as (Hs & Htm & Hw).
    injection Hstep as <- _.
    destruct (mount_final s letters digit Hid Hw) as [g ->].
    apply follows_strudelMCP, follows_connect.
    + split; assumption.
    + cbn. intros i ws. rewrite Hs. discriminate.
  - (* Render *)
    injection Hstep as <- _. rewrite effect_global_final.
    now apply follows_strudelMCP.
  - (* Unmount *)
    injection Hstep as <- _. rewrite effect_connect_cleanup_final, ws_close_final.
    destruct (current_socket s) as [[i ws]|] eqn:Hcur; [|assumption].
    pose proof Hcur as Hi. apply current_socket_lookup in Hi.
    assert (i < length (sockets s))%nat as Hlt by (eapply lookup_lt_Some; eassumption).
    assert (wsRef s = Some i) as Hw.
    { unfold current_socket in Hcur. destruct (wsRef s) as [j|]; [|discriminate].
      destruct (sockets s !! j); [|discriminate]. congruence. }
    assert (readyState ws = CONNECTING \/ readyState ws = OPEN ->
            status_follows_channel
              (with_sockets (<[i := {| url := url ws; readyState := CLOSING |}]> (sockets s)) s))
      as Hclose.
    { intros Hr. split; cbn.
      - assumption.
      - intros j wj Hj Hrj. destruct (decide (i = j)) as [->|Hne].
        + rewrite list_lookup_insert_eq in Hj by assumption. injection Hj as <-. discriminate.
        + rewrite list_lookup_insert_ne in Hj by assumption. eauto.
      - intros j wj Hj Hrj. destruct (decide (i = j)) as [->|Hne].
        + rewrite list_lookup_insert_eq in Hj by assumption. injection Hj as <-. discriminate.
        + rewrite list_lookup_insert_ne in Hj by assumption. eauto.
      - intros Hcon. exists i, {| url := url ws; readyState := CLOSING |}.
        rewrite list_lookup_insert_eq by assumption. auto. }
    destruct (readyState ws) eqn:Hr; auto.
  - (* SocketOpen *)
    destruct (sockets s !! sock) as [[u []]|] eqn:Hi; try discriminate.
    injection Hstep as <- _. unfold set_readyState. rewrite Hi.
    change (final (onopen u) ?x) with (with_connectionStatus "connected" x).
    assert (sock < length (sockets s))%nat as Hlt by (eapply lookup_lt_Some; eassumption).
    destruct (Hl _ _ Hi) as [Hw _]; [discriminate|].
    split; cbn.
    + now right.
    + intros j wj Hj Hrj. destruct (decide (sock = j)) as [->|Hne].
      * rewrite list_lookup_insert_eq in Hj by assumption. injection Hj as <-. discriminate.
      * rewrite list_lookup_insert_ne in Hj by assumption.
        destruct (Hl _ _ Hj) as [Hw' _]; [congruence|]. congruence.
    + reflexivity.
    + intros _. exists sock, {| url := u; readyState := OPEN |}.
      rewrite list_lookup_insert_eq by assumption. auto.
  - (* SocketMessage *)
    destruct (sockets s !! sock) as [[u []]|] eqn:Hi; try discriminate.
    injection Hstep as <- _.
    destruct (onmessage_frame data s) as [-> _].
    now apply follows_editorRef.
  - (* SocketClose *)
    destruct (sockets s !! sock) as [ws|] eqn:Hi; [|discriminate].
    assert (readyState ws <> CLOSED) as Hlive
      by (destruct ws as [u []]; try discriminate; cbn; congruence).
    assert (Some (final (when failed onerror;; onclose) (set_readyState sock CLOSED s),
                  trace (when failed onerror;; onclose) (set_readyState sock CLOSED s))
            = Some (s', t)) as Hstep'
      by (destruct ws as [u []]; try discriminate; exact Hstep).
    clear Hstep. injection Hstep' as <- _.
    rewrite socket_handlers_final. unfold set_readyState. rewrite Hi.
    assert (sock < length (sockets s))%nat as Hlt by (eapply lookup_lt_Some; eassumption).
    destruct (Hl _ _ Hi Hlive) as [Hw _].
    split; cbn.
    + now left.
    + reflexivity.
    + intros j wj Hj Hrj. destruct (decide (sock = j)) as [->|Hne].
      * rewrite list_lookup_insert_eq in Hj by assumption. injection Hj as <-. discriminate.
      * rewrite list_lookup_insert_ne in Hj by assumption.
        destruct (Hl _ _ Hj) as [Hw' _]; [congruence|]. congruence.
    + discriminate.
  - (* TimerFires *)
    destruct (timers s !! k) as [tm|] eqn:Hk; [|discriminate].
    destruct (due tm <=? now s)%Z; [|discriminate].
    injection Hstep as <- _. destruct tm as [d []]. cbn.
    apply follows_connect.
    + split; assumption.
    + cbn. intros i ws Hi. destruct (readyState ws) eqn:Hr; try reflexivity.
      all: destruct (Hl i ws Hi) as [_ Hnil]; [congruence|].
      all: rewrite Hnil in Hk; discriminate.
  - (* Elapse *)
    destruct (0 <=? ms)%Z; [|discriminate]. injection Hstep as <- _.
    now apply follows_now.
  - injection Hstep as <- _. now apply follows_editorRef.
  - injection Hstep as <- _. now apply follows_editorRef.
Qed.

Lemma follows_initial loc t0 (ed : option E) : status_follows_channel (initial loc t0 ed).
Proof.
  split; cbn; [now left | discriminate | discriminate | discriminate].
Qed.

Lemma follows_reachable loc t0 ed s :
  reachable hook (initial loc t0 ed) s -> one_channel s /\ status_follows_channel s.
Proof.
  intros Hr. induction Hr as [|s ev s' t Hr [Hone Hf] Hstep].
  - split; [apply one_channel_initial | apply follows_initial].
  - split; [eapply one_channel_step | eapply follows_step]; eassumption.
Qed.

(** C5, amended: in every state the hook can reach the status is
    ['disconnected'], ['connected'] or ['error'], never ['connecting'], and
    it follows the channel: it is ['disconnected'] while a socket is
    CONNECTING and ['connected'] while a socket is OPEN.  A turn that opens
    a socket takes it from ['disconnected'] to ['connected']; on an open
    channel a clean close takes it from ['connected'] to ['disconnected']
    and a failure from ['connected'] to ['error'] and then to
    ['disconnected']; and no other turn sets it. *)
Theorem status_machine loc t0 ed s :
  reachable hook (initial loc t0 ed) s ->
  (connectionStatus s = "disconnected" \/ connectionStatus s = "connected"
   \/ connectionStatus s = "error")
  /\ status_follows_channel s
  /\ (forall ev s' t,
        step hook s ev = Some (s', t) ->
        statuses t = status_of_event ev
        /\ connectionStatus s' = List.last (statuses t) (connectionStatus s))
  /\ (forall i s' t,
        step hook s (SocketOpen i) = Some (s', t) ->
        connectionStatus s = "disconnected" /\ statuses t = ["connected"]
        /\ connectionStatus s' = "connected")
  /\ (forall i ws failed s' t,
        sockets s !! i = Some ws -> readyState ws = OPEN ->
        step hook s (SocketClose i failed) = Some (s', t) ->
        connectionStatus s = "connected"
        /\ statuses t = (if failed then ["error"; "disconnected"] else ["disconnected"])
        /\ connectionStatus s' = "disconnected").
Proof.
  intros Hr. destruct (follows_reachable _ _ _ _ Hr) as [Hone Hf].
  pose proof Hf as [Hv Hc Ho Hn].
  split; [tauto|]. split; [assumption|].
  split; [intros ev s' t; apply last_statuses_step|]. split.
  - intros i s' t Hstep.
    pose proof (last_statuses_step _ _ _ _ Hstep) as [Ht Hs'].
    rewrite Ht in Hs'. cbn in Ht, Hs'. repeat split; try assumption.
    cbn in Hstep. destruct (sockets s !! i) as [[u r]|] eqn:Hi; [|discriminate].
    apply (Hc i _ Hi). cbn. destruct r; try discriminate. reflexivity.
  - intros i ws failed s' t Hi Hr' Hstep.
    pose proof (last_statuses_step _ _ _ _ Hstep) as [Ht Hs'].
    rewrite Ht in Hs'. split; [eauto|].
    destruct failed; cbn in Ht, Hs'; split; assumption.
Qed.

End Status.

(** ** The activation gates *)

Section Gates.
Context {E : Type} `{EditorAdapter E} `{JSON}.
Implicit Type s : State E.
Import UseWebSocketMCP.

(** What the publishing effect leaves in [window.strudelMCP]. *)
Lemma effect_global_strudelMCP s :
  strudelMCP (final effect_global s) =
    if isMCPServer_global (location s) && editor_attached s
    then Some {| mcp_setCode := FnSetCode; mcp_play := FnEvaluate;
                 mcp_stop := FnStop; mcp_getCode := FnCode;
                 mcp_sessionId := sessionId s;
                 mcp_connectionStatus := connectionStatus s |}
    else strudelMCP s.
Proof.
  unfold final, effect_global, bind, gets, when, modify, emit, ret. cbn.
  destruct (isMCPServer_global (location s) && editor_attached s); reflexivity.
Qed.

Lemma Part001_effect_global_strudelMCP s :
  strudelMCP (final Part001.effect_global s) =
    if Part001.isMCPServer (location s) && editor_attached s
    then Some {| mcp_setCode := FnSetCode; mcp_play := FnEvaluate;
                 mcp_stop := FnStop; mcp_getCode := FnGetCode;
                 mcp_sessionId := sessionId s;
                 mcp_connectionStatus := connectionStatus s |}
    else strudelMCP s.
Proof.
  unfold final, Part001.effect_global, bind, gets, when, modify, emit, ret. cbn.
  destruct (Part001.isMCPServer (location s) && editor_attached s); reflexivity.
Qed.

(** The publishing gate is the narrower one. *)
Lemma global_gate_within_gate loc :
  isMCPServer_global loc = true -> isMCPServer loc = true.
Proof.
  unfold isMCPServer_global, isMCPServer.
  destruct (String.eqb (port loc) "8080"), (includes (host loc) "8080"),
    (String.eqb (port loc) "8000"); cbn; auto; discriminate.
Qed.

Lemma inert_step loc s ev s' t :
  isMCPServer loc = false -> inert loc s -> step hook s ev = Some (s', t) ->
  inert loc s' /\ effects t = match ev with Mount l d => [SetSessionId (generateSessionId l d)] | _ => [] end.
Proof.
  intros Hgate (Hloc & Hs & Htm & Hw & Hg) Hstep.
  assert (isMCPServer_global loc = false) as Hgg.
  { destruct (isMCPServer_global loc) eqn:Hx; [|reflexivity].
    apply global_gate_within_gate in Hx. congruence. }
  destruct ev; cbn in Hstep.
  - destruct (String.eqb (sessionId s) "") eqn:Hid; [|discriminate].
    injection Hstep as <- <-.
    callbacks. unfold inert.
    repeat (cbn; rewrite ?Hloc, ?Hgate, ?Hgg, ?Hid, ?Hw, ?generateSessionId_nonempty).
    repeat split; auto.
  - injection Hstep as <- <-. callbacks. unfold inert.
    repeat (cbn; rewrite ?Hloc, ?Hgate, ?Hgg). repeat split; auto.
  - injection Hstep as <- <-. callbacks. unfold inert.
    repeat (cbn; rewrite ?Hw). repeat split; auto.
  - rewrite Hs in Hstep. discriminate.
  - rewrite Hs in Hstep. discriminate.
  - rewrite Hs in Hstep. discriminate.
  - rewrite Htm in Hstep. discriminate.
  - destruct (0 <=? ms); [|discriminate]. injection Hstep as <- <-. unfold inert. repeat split; auto.
  - injection Hstep as <- <-. unfold inert. repeat split; auto.
  - injection Hstep as <- <-. unfold inert. repeat split; auto.
Qed.

(** X17: on a page that fails the gate of [connectWebSocket] the hook never
    opens a socket, never sets a timer and never publishes
    [window.strudelMCP]; apart from console output, all it ever does is set
    the session id at mount. *)
Theorem inert_off_server loc t0 ed s :
  isMCPServer loc = false -> reachable hook (initial loc t0 ed) s ->
  sockets s = [] /\ timers s = [] /\ strudelMCP s = None
  /\ forall ev s' t,
       step hook s ev = Some (s', t) ->
       effects t = match ev with
                   | Mount l d => [SetSessionId (generateSessionId l d)]
                   | _ => []
                   end.
Proof.
  intros Hgate Hr. cut (inert loc s).
  { intros Hi. unfold inert in Hi. repeat split; try tauto.
    intros ev s' t Hstep. eapply inert_step; eauto. }
  induction Hr as [|s ev s' t Hr IH Hstep].
  - unfold inert. cbn. repeat split; auto.
  - eapply inert_step; eauto.
Qed.
End Gates.

(** ** Runs *)

Section RunLemmas.
Context {E : Type}.
Variable h : Hook E.

Lemma reachable_run evs : forall s0 s ss t,
  reachable h s0 s -> run h s evs = Some (ss, t) -> reachable h s0 (List.last ss s).
Proof.
  induction evs as [|ev evs IH]; intros s0 s ss t Hr Hrun; cbn in Hrun.
  - injection Hrun as <- <-. exact Hr.
  - destruct (step h s ev) as [[s1 t1]|] eqn:Hstep; [|discriminate].
    destruct (run h s1 evs) as [[ss' t2]|] eqn:Hrest; [|discriminate].
    injection Hrun as <- <-. rewrite last_cons_default.
    eapply IH; [|eassumption]. eapply reachable_step; eassumption.
Qed.

Lemma reachable_after s0 evs : reachable h s0 (after h s0 evs).
Proof.
  unfold after. destruct (run h s0 evs) as [[ss t]|] eqn:Hrun.
  - eapply reachable_run; [apply reachable_refl | eassumption].
  - apply reachable_refl.
Qed.
End RunLemmas.

(** * The hook on concrete pages *)

Module Runs.
Import Sample Frozen.

(** C5, as stated, fails: the page on port 8080 mounts the hook and the
    socket opens; while the socket is CONNECTING the status is still
    ['disconnected'], then it is ['connected'], and ['connecting'] is never
    set. *)
Lemma no_connecting_status :
  exists ss t,
    run UseWebSocketMCP.hook (initial (localhost "8080") 0 (Some editor))
      [Mount "abc" 7; SocketOpen 0] = Some (ss, t)
    /\ map readyState (flat_map sockets ss) = [CONNECTING; OPEN]
    /\ map connectionStatus ss = ["disconnected"; "connected"]
    /\ statuses t = ["connected"]
    /\ ~ In "connecting" ("disconnected" :: map connectionStatus ss ++ statuses t)%list.
Proof.
  eexists _, _. split; [reflexivity|]. cbn.
  repeat split. intros Hin. repeat (destruct Hin as [Hin|Hin]; [discriminate|]). exact Hin.
Qed.

(** C8, as stated, fails: the page of port 8080 has an editor whose
    [setCode] throws; a [strudel-code] message on its open channel reaches
    [setCode], and [evaluate] is never called. *)
Lemma setCode_throws_evaluate_not_called :
  exists s' t,
    step UseWebSocketMCP.hook Pages.frozen_connected
      (SocketMessage 0 (stringify strudel_code_message)) = Some (s', t)
    /\ editorRef Pages.frozen_connected = Some Frozen.frozen
    /\ editor_calls t = [CallSetCode (VStr "s(bd sn)")]
    /\ ~ In CallEvaluate (editor_calls t).
Proof.
  eexists _, _. split; [vm_compute; reflexivity|].
  split; [reflexivity|]. split; [reflexivity|].
  intros [Hin|[]]. discriminate.
Qed.

(** *** The theorems at work on the page of port 8080 *)

(** A ping on the open channel, no editor attached. *)
Lemma ping_yields_one_pong_witness :
  sent (trace (UseWebSocketMCP.onmessage (stringify ping_message)) (connected None))
    = [(0%nat, pong)].
Proof.
  refine (proj1 (ping_yields_one_pong (localhost "8080") 1000 None (connected None) 0
                   (stringify ping_message) ping_message _ _ _ _ _ _)).
  - apply reachable_after.
  - reflexivity.
  - reflexivity.
  - reflexivity.
Defined.

(** A request while the editor throws on reading its code. *)
Lemma current_code_response_payload_witness :
  exists i,
    wsRef (connected (Some broken_editor)) = Some i
    /\ sent (trace (UseWebSocketMCP.sendCurrentCodeToServer (VStr "r1"))
               (connected (Some broken_editor))) =
         [(i, stringify (VObj [("type", VStr "current-code-response");
                                ("request_id", VStr "r1");
                                ("code", VStr "// Error: Could not retrieve code");
                                ("timestamp", VNum 1000)]))].
Proof.
  exact (current_code_response_payload (connected (Some broken_editor)) (VStr "r1")
           eq_refl).
Defined.

(** A frame that is not JSON, and a message of the unknown type [hello]. *)
Lemma malformed_or_unknown_frame_is_dropped_witness :
  UseWebSocketMCP.onmessage "{type: ping" (connected (Some editor)) =
    (Normal tt, connected (Some editor),
     [Console Error "WebSocket message error:" [AExn SyntaxError]])
  /\ final (UseWebSocketMCP.onmessage (stringify unknown_message)) (connected (Some editor))
       = connected (Some editor)
  /\ effects (trace (UseWebSocketMCP.onmessage (stringify unknown_message))
                (connected (Some editor))) = [].
Proof.
  split.
  - destruct (malformed_or_unknown_frame_is_dropped (connected (Some editor)) "{type: ping")
      as (Hres & Hfin & _ & Htrace); [exact I|].
    specialize (Htrace eq_refl). unfold result, final, trace in *.
    destruct (UseWebSocketMCP.onmessage "{type: ping" (connected (Some editor)))
      as [[r s] t].
    cbn in *. congruence.
  - destruct (malformed_or_unknown_frame_is_dropped (connected (Some editor))
                (stringify unknown_message))
      as (_ & Hfin & Heff & _); [reflexivity|].
    split; assumption.
Defined.

(** A [strudel-code] message that carries a description. *)
Lemma strudel_code_sets_then_evaluates_witness :
  editor_calls (trace (UseWebSocketMCP.onmessage (stringify described_message))
                  (connected (Some editor)))
    = [CallSetCode (VStr "s(bd sn)"); CallEvaluate].
Proof.
  refine (proj1 (strudel_code_sets_then_evaluates (connected (Some editor))
                   (stringify described_message) described_message (VStr "s(bd sn)")
                   editor _ _ _ _) _); reflexivity.
Defined.

(** A [strudel-stop] message through both copies of the handler. *)
Lemma duplicate_handlers_agree_witness :
  UseWebSocketMCP.onmessage (stringify stop_message) (connected (Some editor)) =
  Part001.onmessage (stringify stop_message) (connected (Some editor)).
Proof.
  apply (duplicate_handlers_agree (connected (Some editor)) (stringify stop_message)
           stop_message "strudel-stop").
  - reflexivity.
  - reflexivity.
  - right. left. reflexivity.
Defined.

(** The connected page, and the failure of its channel. *)
Lemma status_machine_witness :
  (connectionStatus (connected None) = "disconnected"
   \/ connectionStatus (connected None) = "connected"
   \/ connectionStatus (connected None) = "error")
  /\ statuses (trace (when true UseWebSocketMCP.onerror ;; UseWebSocketMCP.onclose)
                 (set_readyState 0 CLOSED (connected None)))
       = ["error"; "disconnected"].
Proof.
  destruct (status_machine (localhost "8080") 1000 None (connected None)
              (reachable_after _ _ _)) as (Hvalues & _ & Hsteps & _).
  split; [exact Hvalues|].
  exact (proj1 (Hsteps (SocketClose 0 true) _ _ eq_refl)).
Defined.

(** A clean close at time 1000, and two failures in a row. *)
Lemma reconnect_after_fixed_delay_witness :
  timers (after UseWebSocketMCP.hook (connected None) [SocketClose 0 false]) =
    [{| due := 4000; callback := ConnectWebSocket |}]
  /\ exists ss t,
       run UseWebSocketMCP.hook (connected None) (retries 0 2) = Some (ss, t)
       /\ timeouts t = [(ConnectWebSocket, 3000); (ConnectWebSocket, 3000)]
       /\ map fst (opened t) = [1; 2]%nat
       /\ length (sockets (List.last ss (connected None))) = 3%nat.
Proof.
  split.
  - refine (proj1 (proj2 (proj1 reconnect_after_fixed_delay (connected None) 0%nat false
                            _ _ eq_refl))).
  - refine (proj2 reconnect_after_fixed_delay 2%nat (connected None) 0%nat _ _ _ _ _ _).
    + reflexivity.
    + reflexivity.
    + discriminate.
    + reflexivity.
    + reflexivity.
Defined.

(** *** Requests that get no answer *)

(** C1 fails in [part_001]: on the page of port 8080, with the channel
    open, the request [{type: 'get-current-code', request_id: 'r1'}] gets
    no frame back from the hook of [part_001] when no editor is attached, and
    none when reading the code throws, where the hook of
    [useWebSocketMCP.jsx] sends the placeholder response with [request_id]
    ['r1']. *)
Theorem duplicate_hook_drops_request :
  (exists ss t,
     run Part001.hook (page None) (opening ++ [SocketMessage 0 request])
       = Some (ss, t)
     /\ sent t = [])
  /\ (exists ss t,
        run Part001.hook (page (Some broken_editor))
          (opening ++ [SocketMessage 0 request]) = Some (ss, t)
        /\ sent t = [])
  /\ (exists ss t,
        run UseWebSocketMCP.hook (page None) (opening ++ [SocketMessage 0 request])
          = Some (ss, t)
        /\ sent t =
             [(0%nat, stringify (UseWebSocketMCP.current_code_response (VStr "r1")
                                   "// Error: Editor not ready" 1000))]).
Proof. repeat split; eexists _, _; split; reflexivity. Qed.

(** *** Reconnects after teardown *)

(** C4 fails in the code: the cleanup only closes the socket.  After an
    unmount with the channel open, the [close] event of that socket schedules
    a reconnect and, 3000 ms later, a new socket is opened for the session of
    the unmounted component; and a reconnect timer that is pending at the
    unmount still fires and opens a new socket. *)
Theorem teardown_does_not_stop_reconnects :
  map readyState (sockets unmounted) = [CLOSING]
  /\ (exists ss t,
        run UseWebSocketMCP.hook unmounted
          [SocketClose 0 false; Elapse 3000; TimerFires 0] = Some (ss, t)
        /\ effects t = [SetConnectionStatus "disconnected";
                        SetTimeout ConnectWebSocket 3000;
                        NewWebSocket 1 session_url]
        /\ map readyState (sockets (List.last ss unmounted)) = [CLOSED; CONNECTING])
  /\ timers unmounted_while_waiting = [{| due := 4000; callback := ConnectWebSocket |}]
  /\ (exists ss t,
        run UseWebSocketMCP.hook unmounted_while_waiting
          [Elapse 2000; TimerFires 0] = Some (ss, t)
        /\ effects t = [NewWebSocket 1 session_url]
        /\ map readyState (sockets (List.last ss unmounted_while_waiting))
             = [CLOSED; CONNECTING]).
Proof.
  split; [reflexivity|]. split; [eexists _, _; repeat split; reflexivity|].
  split; [reflexivity|]. eexists _, _; repeat split; reflexivity.
Qed.

(** *** The page on the Docker port *)

(** C6 fails in [useWebSocketMCP.jsx] on port 8000: the gate of
    [connectWebSocket] and [isMCPEnabled] accept the page, the gate of the
    publishing effect does not.  With an editor attached, the hook opens the
    channel and never publishes [window.strudelMCP], also after a later
    render. *)
Theorem docker_port_has_channel_but_no_global_api :
  UseWebSocketMCP.isMCPServer (localhost "8000") = true
  /\ UseWebSocketMCP.isMCPEnabled (localhost "8000") = true
  /\ UseWebSocketMCP.isMCPServer_global (localhost "8000") = false
  /\ exists ss t,
       run UseWebSocketMCP.hook (initial (localhost "8000") 1000 (Some editor))
         (opening ++ [Render]) = Some (ss, t)
       /\ opened t = [(0%nat, "ws://localhost:8000/strudel/ws?session_id=abc7")]
       /\ map editor_attached ss = [true; true; true]
       /\ map strudelMCP ss = [None; None; None].
Proof. repeat split. eexists _, _; repeat split; reflexivity. Qed.

End Runs.

(** * More of the hook *)

(** ** What the message handlers never do *)

Section Contained.
Context {E : Type} `{EditorAdapter E} `{JSON}.
Implicit Type s : State E.

Lemma try_catch_returns (m : M (E:=E) unit) (handler : exn -> M unit) s :
  (forall e s1, result (handler e) s1 = Normal tt) ->
  result (try_catch m handler) s = Normal tt.
Proof.
  intros Hh. unfold result, try_catch.
  destruct (m s) as [[[[]|e] s1] t1]; cbn; [reflexivity|].
  specialize (Hh e s1). unfold result in Hh.
  destruct (handler e s1) as [[r s2] t2]; exact Hh.
Qed.

(** X1: whatever the frame and the state, and in both copies of the hook,
    no exception leaves [onmessage], nothing but the editor changes
    (sockets, [wsRef], timers, status, session id and [window.strudelMCP]
    stay as they are), and every action is console output, an editor call or
    a frame sent. *)
Theorem message_handlers_are_contained frame s :
  (result (UseWebSocketMCP.onmessage frame) s = Normal tt
   /\ only_editor handler_action s (final (UseWebSocketMCP.onmessage frame) s)
        (trace (UseWebSocketMCP.onmessage frame) s))
  /\ (result (Part001.onmessage frame) s = Normal tt
      /\ only_editor handler_action s (final (Part001.onmessage frame) s)
           (trace (Part001.onmessage frame) s)).
Proof.
  split; split.
  - apply try_catch_returns. reflexivity.
  - apply onmessage_frame.
  - apply try_catch_returns. reflexivity.
  - apply Part001_onmessage_frame.
Qed.

End Contained.

(** ** The other branches of [onmessage] *)

Section Branches.
Context {E : Type} `{EditorAdapter E} `{JSON}.
Implicit Type s : State E.
Import UseWebSocketMCP.

(** X2: [strudel-stop] and [stop] are synonyms: either one calls [stop()]
    once when an editor is attached and calls nothing otherwise, sends no
    frame, and leaves the state alone when no editor is attached. *)
Theorem stop_synonyms s frame data tag :
  JSON_parse frame = Some data -> message_type data = Some tag ->
  tag = "strudel-stop" \/ tag = "stop" ->
  editor_calls (trace (onmessage frame) s) = (if editor_attached s then [CallStop] else [])
  /\ sent (trace (onmessage frame) s) = []
  /\ (editorRef s = None -> final (onmessage frame) s = s).
Proof.
  intros Hp Ht Htag. apply message_type_get in Ht as (fields & -> & Ht).
  unfold final, trace. handlers. unfold editor_attached. rewrite Hp. cbn. rewrite Ht.
  destruct Htag as [ -> | -> ]; cbn.
  all: destruct (editorRef s) as [e|] eqn:He; cbn; rewrite ?He; cbn.
  all: try (destruct (stop e) as [[[]|err] e1]; cbn; repeat split; auto; discriminate).
  all: repeat split; auto.
Qed.

(** X3: a [strudel-code] message that arrives while no editor is attached is
    logged and otherwise ignored: no exception, no change of state, no frame
    sent. *)
Theorem strudel_code_without_editor s frame data :
  JSON_parse frame = Some data -> message_type data = Some "strudel-code" ->
  editorRef s = None ->
  onmessage frame s =
    (Normal tt, s,
     [Console Log "WebSocket received message:" [AValue data];
      Console Log "Processing strudel-code message:" [AValue data]]).
Proof.
  intros Hp Ht He. apply message_type_get in Ht as (fields & -> & Ht).
  handlers. unfold editor_attached. rewrite Hp. cbn. rewrite Ht. cbn.
  destruct (get_opt_normal (own_property "metadata" fields) "description") as [d ->].
  cbn. rewrite He. reflexivity.
Qed.

(** X4: when [setCode] throws on a [strudel-code] message, [evaluate] is not
    called; the exception is caught by the handler and logged with
    [console.error], and only the editor may have changed. *)
Theorem throwing_setCode_skips_evaluate s frame data c e err :
  JSON_parse frame = Some data -> message_type data = Some "strudel-code" ->
  get data "code" = Normal c -> editorRef s = Some e ->
  fst (setCode c e) = Throw err ->
  result (onmessage frame) s = Normal tt
  /\ editor_calls (trace (onmessage frame) s) = [CallSetCode c]
  /\ In (Console Error "WebSocket message error:" [AExn err]) (trace (onmessage frame) s)
  /\ final (onmessage frame) s = with_editorRef (Some (snd (setCode c e))) s.
Proof.
  intros Hp Ht Hc He Hthrow.
  unfold result, trace, final. rewrite (onmessage_strudel_code s frame data c e) by assumption.
  destruct (setCode c e) as [[[]|err'] e1]; cbn in Hthrow; [discriminate|].
  injection Hthrow as ->. cbn. repeat split; auto.
Qed.

(** X5: a request that is handled while the channel behind [wsRef.current]
    is not open is dropped: nothing is sent, nothing is queued and the state
    does not change; with an editor attached the code is still read and the
    failure is logged with [console.error]. *)
Theorem request_on_closed_channel_is_dropped s requestId :
  ws_is_open s = false ->
  result (sendCurrentCodeToServer requestId) s = Normal tt
  /\ final (sendCurrentCodeToServer requestId) s = s
  /\ sent (trace (sendCurrentCodeToServer requestId) s) = []
  /\ editor_calls (trace (sendCurrentCodeToServer requestId) s)
     = (if editor_attached s then [ReadCode] else [])
  /\ (editor_attached s = true ->
      In (Console Error "WebSocket not connected - cannot send code" [])
         (trace (sendCurrentCodeToServer requestId) s)).
Proof.
  intros Ho. unfold result, final, trace. handlers. unfold editor_attached.
  destruct (editorRef s) as [e|] eqn:He; cbn; rewrite ?He, ?Ho; cbn.
  - destruct (code e) as [c|err]; cbn; rewrite ?Ho; cbn; repeat split; auto 10.
  - repeat split; auto. discriminate.
Qed.


End Branches.

(** ** The gate, read as text *)

Lemma append_cons c a b : String c a ++ b = String c (a ++ b).
Proof. reflexivity. Qed.

Lemma prefix_app needle hay :
  String.prefix needle hay = true <-> exists post, hay = needle ++ post.
Proof.
  revert hay. induction needle as [|c needle IH]; intros hay.
  - split; [eauto | intros _; destruct hay; reflexivity].
  - destruct hay as [|d hay]; cbn.
    + split; [discriminate | intros [post Hp]; discriminate].
    + destruct (Ascii.ascii_dec c d) as [Heq|Hne].
      * rewrite IH. subst d.
        split; intros [post Hp]; exists post; rewrite append_cons in *; congruence.
      * split; [discriminate | intros [post Hp]; rewrite append_cons in Hp; congruence].
Qed.

(** [hay.includes(needle)] holds exactly when [needle] occurs in [hay]. *)
Lemma includes_app hay needle :
  includes hay needle = true <-> exists pre post, hay = pre ++ needle ++ post.
Proof.
  induction hay as [|c hay IH].
  - change (includes "" needle) with (String.prefix needle "" || false).
    rewrite orb_false_r, prefix_app. split.
    + intros [post Hp]. exists "", post. exact Hp.
    + intros (pre & post & Hp). destruct pre; [eauto | discriminate].
  - change (includes (String c hay) needle)
      with (String.prefix needle (String c hay) || includes hay needle).
    rewrite orb_true_iff, IH. split.
    + intros [Hpre | (pre & post & ->)].
      * apply prefix_app in Hpre as [post Hp]. exists "", post. exact Hp.
      * exists (String c pre), post. reflexivity.
    + intros (pre & post & Hp). destruct pre as [|d pre].
      * left. apply prefix_app. eauto.
      * right. rewrite append_cons in Hp. injection Hp as -> ->. eauto.
Qed.

(** X7: [connectWebSocket] of [useWebSocketMCP.jsx] goes ahead exactly on
    the pages whose port is 8080 or 8000 or whose host text contains 8080 or
    8000 anywhere, so also on port 18080 or on a host name with these
    digits; the gate of the publishing effect is the same test with 8080
    alone. *)
Theorem gate_by_text loc :
  (UseWebSocketMCP.isMCPServer loc = true <->
   port loc = "8080" \/ port loc = "8000"
   \/ (exists pre post, host loc = pre ++ "8080" ++ post)
   \/ (exists pre post, host loc = pre ++ "8000" ++ post))
  /\ (UseWebSocketMCP.isMCPServer_global loc = true <->
      port loc = "8080" \/ (exists pre post, host loc = pre ++ "8080" ++ post)).
Proof.
  unfold UseWebSocketMCP.isMCPServer, UseWebSocketMCP.isMCPServer_global.
  rewrite !orb_true_iff, !String.eqb_eq, !includes_app. tauto.
Qed.

(** ** The two copies, event by event *)

Section PageRules.
Context {E : Type} `{EditorAdapter E} `{JSON}.
Implicit Type s : State E.

Lemma keeps_page_refl s : keeps_page s s [].
Proof. split; reflexivity. Qed.

Lemma keeps_page_trans s s1 s2 t1 t2 :
  keeps_page (E:=E) s s1 t1 -> keeps_page s1 s2 t2 ->
  keeps_page s s2 (t1 ++ t2)%list.
Proof. unfold keeps_page. intros [? ?] [? ?]. split; congruence. Qed.

Lemma keeps_page_ws_close : respects keeps_page (ws_close (E:=E)).
Proof.
  intros s. unfold keeps_page, final, ws_close.
  destruct (current_socket s) as [[i [u []]]|]; split; reflexivity.
Qed.

End PageRules.

Ltac page_frame :=
  cbv zeta;
  repeat (intros; first
    [ apply keeps_page_ws_close
    | apply (respects_ret keeps_page keeps_page_refl)
    | apply (respects_gets keeps_page keeps_page_refl)
    | apply (respects_when keeps_page keeps_page_refl)
    | apply respects_if
    | apply (respects_bind keeps_page keeps_page_trans)
    | (intros ?; split; reflexivity) ]).

Section Copies.
Context {E : Type} `{EditorAdapter E} `{JSON}.
Implicit Type s : State E.

Lemma keeps_page_effect_connect :
  respects keeps_page (UseWebSocketMCP.effect_connect (E:=E)).
Proof.
  unfold UseWebSocketMCP.effect_connect, UseWebSocketMCP.connectWebSocket. page_frame.
Qed.

Lemma keeps_page_effect_global :
  respects keeps_page (UseWebSocketMCP.effect_global (E:=E)).
Proof. unfold UseWebSocketMCP.effect_global. page_frame. Qed.

Lemma keeps_page_effect_session letters digit :
  respects keeps_page (UseWebSocketMCP.effect_session (E:=E) letters digit).
Proof. unfold UseWebSocketMCP.effect_session, setSessionId. page_frame. Qed.

Lemma keeps_page_cleanup :
  respects keeps_page (UseWebSocketMCP.effect_connect_cleanup (E:=E)).
Proof. unfold UseWebSocketMCP.effect_connect_cleanup. page_frame. Qed.

Lemma handlers_agree_off_requests frame s :
  is_request frame = false ->
  UseWebSocketMCP.onmessage frame s = Part001.onmessage frame s.
Proof.
  unfold is_request, UseWebSocketMCP.onmessage, Part001.onmessage,
    try_catch, bind, lift at 1 2 5 6.
  destruct (JSON_parse frame) as [data|]; [|reflexivity]. cbn.
  destruct (get data "type") as [type|e]; [|reflexivity]. cbn.
  intros Hreq.
  destruct (is_string type "strudel-code"); [reflexivity|].
  destruct (is_string type "strudel-stop" || is_string type "stop"); [reflexivity|].
  rewrite Hreq. reflexivity.
Qed.

Lemma connect_agrees s :
  same_gate (location s) ->
  UseWebSocketMCP.connectWebSocket s = Part001.connectWebSocket s.
Proof.
  intros Hg. unfold UseWebSocketMCP.connectWebSocket, Part001.connectWebSocket, bind, gets.
  cbn. rewrite Hg. reflexivity.
Qed.

Lemma bind_agree {A B} (m1 m2 : M (E:=E) A) (f1 f2 : A -> M B) s :
  m1 s = m2 s -> keeps_page s (final m1 s) (trace m1 s) ->
  (forall a s', location s' = location s -> editorRef s' = editorRef s ->
                f1 a s' = f2 a s') ->
  bind m1 f1 s = bind m2 f2 s.
Proof.
  intros Hm [Hloc Hed] Hf. unfold bind, final in *. rewrite <- Hm.
  destruct (m1 s) as [[[a|e] s1] t1]; cbn in *; [|reflexivity].
  rewrite (Hf a s1 Hloc Hed). reflexivity.
Qed.

Lemma effect_connect_agrees s :
  same_gate (location s) ->
  UseWebSocketMCP.effect_connect s = Part001.effect_connect s.
Proof.
  intros Hg. unfold UseWebSocketMCP.effect_connect, Part001.effect_connect.
  apply bind_agree; [reflexivity | split; reflexivity |].
  intros id s' Hloc _. destruct (negb (String.eqb id "")); [|reflexivity].
  apply connect_agrees. rewrite Hloc. exact Hg.
Qed.

(** Where the publishing effect does not pass its gate, it does nothing in
    either copy. *)
Lemma effect_global_agrees s :
  UseWebSocketMCP.isMCPServer_global (location s) && editor_attached s = false ->
  UseWebSocketMCP.effect_global s = Part001.effect_global s.
Proof.
  intros Hg. unfold UseWebSocketMCP.effect_global, Part001.effect_global, bind, gets, when.
  cbn. change (Part001.isMCPServer (location s))
    with (UseWebSocketMCP.isMCPServer_global (location s)).
  rewrite Hg. reflexivity.
Qed.

Lemma mount_agrees letters digit s :
  same_gate (location s) ->
  UseWebSocketMCP.isMCPServer_global (location s) && editor_attached s = false ->
  UseWebSocketMCP.mount letters digit s = Part001.mount letters digit s.
Proof.
  intros Hg Hpub.
  assert (forall s', location s' = location s -> editorRef s' = editorRef s ->
            UseWebSocketMCP.effect_global s' = Part001.effect_global s') as Hglobal.
  { intros s' Hl He. apply effect_global_agrees.
    unfold editor_attached in *. rewrite Hl, He. exact Hpub. }
  unfold UseWebSocketMCP.mount, Part001.mount.
  apply bind_agree;
    [now apply effect_connect_agrees | apply keeps_page_effect_connect |].
  intros _ s1 L1 E1.
  apply bind_agree; [now apply Hglobal | apply keeps_page_effect_global |].
  intros _ s2 L2 E2.
  apply bind_agree; [reflexivity | apply keeps_page_effect_session |].
  intros _ s3 L3 E3.
  apply bind_agree; [reflexivity | apply keeps_page_cleanup |].
  intros _ s4 L4 E4.
  apply bind_agree; [| apply keeps_page_effect_connect |].
  - apply effect_connect_agrees. unfold same_gate in *. congruence.
  - intros _ s5 L5 E5. apply Hglobal; congruence.
Qed.

(** Where the publishing effect passes its gate, the two copies publish
    objects that differ in [getCode]. *)
Lemma render_republishes s :
  UseWebSocketMCP.isMCPServer_global (location s) && editor_attached s = true ->
  exists api,
    UseWebSocketMCP.effect_global s = (Normal tt, with_strudelMCP (Some api) s, [Publish api])
    /\ mcp_getCode api = FnCode
    /\ Part001.effect_global s =
         (Normal tt, with_strudelMCP (Some (with_getCode FnGetCode api)) s,
          [Publish (with_getCode FnGetCode api)]).
Proof.
  intros Hg. eexists. 
  unfold UseWebSocketMCP.effect_global, Part001.effect_global, bind, gets, when, modify, emit.
  cbn. change (Part001.isMCPServer (location s))
    with (UseWebSocketMCP.isMCPServer_global (location s)).
  rewrite Hg. cbn. split; [reflexivity|]. split; reflexivity.
Qed.

Lemma mount_republishes letters digit s :
  sessionId s = "" ->
  UseWebSocketMCP.isMCPServer_global (location s) && editor_attached s = true ->
  exists api,
    strudelMCP (final (UseWebSocketMCP.mount letters digit) s) = Some api
    /\ mcp_getCode api = FnCode
    /\ turn (Part001.mount letters digit) s =
         republish FnGetCode (turn (UseWebSocketMCP.mount letters digit) s).
Proof.
  intros Hid Hpub. apply andb_prop in Hpub as [Hg Ha].
  pose proof (global_gate_within_gate _ Hg) as Hc.
  assert (Part001.isMCPServer (location s) = true) as Hp by exact Hg.
  unfold editor_attached in Ha. destruct (editorRef s) as [e|] eqn:He; [|discriminate].
  unfold turn.
  destruct (wsRef s) as [i|] eqn:Hw.
  - destruct (sockets s !! i) as [[u r]|] eqn:Hi.
    + destruct r.
      all: unfold Part001.mount, Part001.effect_connect, Part001.effect_connect_cleanup,
        Part001.effect_session, Part001.effect_global, Part001.connectWebSocket,
        current_socket; callbacks; unfold current_socket.
      all: repeat (cbn; rewrite ?Hg, ?He, ?Hc, ?Hp, ?Hid, ?Hw, ?Hi, ?generateSessionId_nonempty).
      all: eexists; split; [reflexivity|]; split; reflexivity.
    + unfold Part001.mount, Part001.effect_connect, Part001.effect_connect_cleanup,
        Part001.effect_session, Part001.effect_global, Part001.connectWebSocket,
        current_socket; callbacks; unfold current_socket.
      repeat (cbn; rewrite ?Hg, ?He, ?Hc, ?Hp, ?Hid, ?Hw, ?Hi, ?generateSessionId_nonempty).
      eexists; split; [reflexivity|]; split; reflexivity.
  - unfold Part001.mount, Part001.effect_connect, Part001.effect_connect_cleanup,
        Part001.effect_session, Part001.effect_global, Part001.connectWebSocket,
        current_socket; callbacks; unfold current_socket.
    repeat (cbn; rewrite ?Hg, ?He, ?Hc, ?Hp, ?Hid, ?Hw, ?Hi, ?generateSessionId_nonempty).
    eexists; split; [reflexivity|]; split; reflexivity.
Qed.

Lemma keeps_page_mount letters digit :
  respects keeps_page (UseWebSocketMCP.mount (E:=E) letters digit).
Proof.
  unfold UseWebSocketMCP.mount. page_frame;
    first [ apply keeps_page_effect_connect | apply keeps_page_effect_global
          | apply keeps_page_effect_session | apply keeps_page_cleanup ].
Qed.

(** The two [getCode] functions are told apart by what they do to the
    editor. *)
Lemma getCode_closures_differ s :
  editor_attached s = true ->
  editor_calls (trace (call FnCode []) s) = [ReadCode]
  /\ editor_calls (trace (call FnGetCode []) s) = [CallGetCode].
Proof.
  unfold editor_attached, trace, call, UseWebSocketMCP.strudelMCP_getCode,
    Part001.strudelMCP_getCode, editor_code, editor_getCode, bind, ret.
  destruct (editorRef s) as [e|]; [intros _|discriminate].
  destruct (code e), (getCode e) as [[c|err] e']; split; reflexivity.
Qed.

(** X8: on a page where the two gates of [connectWebSocket] decide alike
    (any page that is not admitted through 8000 alone), the two copies of the
    hook take the same turn on every event except a [get-current-code]
    message and except the turns that publish [window.strudelMCP]: same
    enabledness, same state after, same actions.  On a turn that publishes,
    the outcomes are equal but for the [getCode] function of the published
    object, which reads [editorRef.current.code] in [useWebSocketMCP.jsx] and
    calls [editorRef.current.getCode()] in [part_001]. *)
Theorem copies_agree_off_requests s ev :
  same_gate (location s) ->
  match ev with SocketMessage _ frame => is_request frame = false | _ => True end ->
  if publishes s ev
  then exists s1 t1 api,
         step UseWebSocketMCP.hook s ev = Some (s1, t1)
         /\ strudelMCP s1 = Some api /\ mcp_getCode api = FnCode
         /\ step Part001.hook s ev = Some (republish FnGetCode (s1, t1))
         /\ editor_calls (trace (call FnCode []) s1) = [ReadCode]
         /\ editor_calls (trace (call FnGetCode []) s1) = [CallGetCode]
  else step UseWebSocketMCP.hook s ev = step Part001.hook s ev.
Proof.
  intros Hg Hev. destruct ev; cbn [publishes]; try reflexivity.
  - (* Mount *)
    cbn [step hook_mount UseWebSocketMCP.hook Part001.hook].
    destruct (String.eqb (sessionId s) "") eqn:Hid; [|reflexivity]. cbn [andb].
    destruct (UseWebSocketMCP.isMCPServer_global (location s) && editor_attached s) eqn:Hpub.
    + apply String.eqb_eq in Hid.
      destruct (mount_republishes letters digit s Hid Hpub) as (api & Hapi & Hf & Hturn).
      eexists _, _, api. split; [reflexivity|]. split; [exact Hapi|]. split; [exact Hf|].
      split; [now rewrite Hturn|].
      apply getCode_closures_differ.
      destruct (keeps_page_mount letters digit s) as [_ He].
      apply andb_prop in Hpub as [_ Ha]. unfold editor_attached in *.
      cbn [fst turn]. rewrite He. exact Ha.
    + unfold turn, final, trace. now rewrite mount_agrees.
  - (* Render *)
    cbn [step hook_render UseWebSocketMCP.hook Part001.hook].
    destruct (UseWebSocketMCP.isMCPServer_global (location s) && editor_attached s) eqn:Hpub.
    + destruct (render_republishes s Hpub) as (api & Hj & Hf & Hp).
      eexists _, _, api. split; [reflexivity|].
      unfold turn, final, trace. rewrite Hj, Hp. cbn.
      split; [reflexivity|]. split; [exact Hf|]. split; [reflexivity|].
      apply getCode_closures_differ. apply andb_prop in Hpub as [_ Ha]. exact Ha.
    + unfold turn, final, trace. now rewrite effect_global_agrees.
  - (* SocketMessage *)
    cbn. destruct (sockets s !! sock) as [[u []]|]; try reflexivity.
    unfold turn, final, trace. now rewrite handlers_agree_off_requests.
  - (* TimerFires *)
    cbn. destruct (timers s !! k) as [[d []]|]; [|reflexivity]. cbn.
    destruct (d <=? now s); [|reflexivity].
    unfold turn, final, trace. rewrite connect_agrees; [reflexivity | exact Hg].
Qed.

End Copies.

(** ** Sessions and channels *)

Section Sessions.
Context {E : Type} `{EditorAdapter E} `{JSON}.
Implicit Type s : State E.
Import UseWebSocketMCP.

(** X9: in every state the hook can reach, at most one socket is not
    CLOSED; it is the one behind [wsRef.current], and no reconnect timer is
    pending while it lives; at most one reconnect timer is pending at any
    time. *)
Theorem single_live_channel loc t0 ed s :
  reachable hook (initial loc t0 ed) s ->
  (length (timers s) <= 1)%nat
  /\ forall i wi, sockets s !! i = Some wi -> readyState wi <> CLOSED ->
       wsRef s = Some i /\ timers s = []
       /\ forall j wj, sockets s !! j = Some wj -> readyState wj <> CLOSED -> j = i.
Proof.
  intros Hr. apply (one_channel_reachable _ _ (one_channel_initial loc t0 ed)) in Hr.
  destruct Hr as [_ Hl Ht]. split; [exact Ht|].
  intros i wi Hi Hlive. destruct (Hl i wi Hi Hlive) as [Hw Htm]. repeat split; auto.
  intros j wj Hj Hlj. destruct (Hl j wj Hj Hlj) as [Hw' _]. congruence.
Qed.


Lemma step_keeps_session s ev s' t :
  step hook s ev = Some (s', t) ->
  location s' = location s
  /\ (sessionId s <> "" -> sessionId s' = sessionId s).
Proof.
  intros Hstep. destruct ev; cbn in Hstep.
  - destruct (String.eqb (sessionId s) "") eqn:Hid; [|discriminate].
    apply String.eqb_eq in Hid. injection Hstep as <- _. split; [|congruence].
    exact (proj1 (keeps_page_mount letters digit s)).
  - injection Hstep as <- _. rewrite effect_global_final. auto.
  - injection Hstep as <- _. rewrite effect_connect_cleanup_final, ws_close_final.
    destruct (current_socket s) as [[i [u []]]|]; auto.
  - destruct (sockets s !! sock) as [[u []]|] eqn:Hi; try discriminate.
    injection Hstep as <- _. unfold set_readyState. rewrite Hi. auto.
  - destruct (sockets s !! sock) as [[u []]|] eqn:Hi; try discriminate.
    injection Hstep as <- _. destruct (onmessage_frame data s) as [-> _]. auto.
  - apply step_SocketClose in Hstep as (ws & Hi & _ & -> & _).
    unfold set_readyState. rewrite Hi. auto.
  - destruct (timers s !! k) as [[d []]|]; [|discriminate]. cbn in Hstep.
    destruct (d <=? now s); [|discriminate]. unfold turn in Hstep.
    injection Hstep as <- _. rewrite connectWebSocket_final. cbn.
    destruct (isMCPServer (location s)); auto.
  - destruct (0 <=? ms); [|discriminate]. injection Hstep as <- _. auto.
  - injection Hstep as <- _. auto.
  - injection Hstep as <- _. auto.
Qed.

Lemma carries_session_step loc s ev s' t :
  one_channel s -> carries_session loc s -> step hook s ev = Some (s', t) ->
  carries_session loc s'.
Proof.
  intros Hone [Hloc Hall] Hstep.
  destruct ev; cbn in Hstep.
  - destruct (String.eqb (sessionId s) "") eqn:Hid; [|discriminate].
    apply String.eqb_eq in Hid. injection Hstep as <- _.
    destruct (before_mount s Hone Hid) as (Hs & _ & Hw).
    destruct (mount_final s letters digit Hid Hw) as [g ->].
    rewrite connectWebSocket_final. cbn. rewrite Hloc.
    destruct (isMCPServer loc); split; cbn; auto; rewrite Hs; cbn; auto.
  - injection Hstep as <- _. rewrite effect_global_final. split; assumption.
  - injection Hstep as <- _. rewrite effect_connect_cleanup_final, ws_close_final.
    destruct (current_socket s) as [[i [u r]]|] eqn:Hc; [|split; assumption].
    apply current_socket_lookup in Hc.
    destruct r; try (split; assumption).
    all: split; [assumption|]; cbn; apply Forall_insert; [assumption|].
    all: eapply Forall_lookup_1 in Hall; [|exact Hc]; exact Hall.
  - destruct (sockets s !! sock) as [[u []]|] eqn:Hi; try discriminate.
    injection Hstep as <- _.
    unfold carries_session, set_readyState. rewrite Hi. cbn.
    split; [assumption | apply Forall_insert; [assumption|]].
    eapply Forall_lookup_1 in Hall; [|exact Hi]; exact Hall.
  - destruct (sockets s !! sock) as [[u []]|] eqn:Hi; try discriminate.
    injection Hstep as <- _. destruct (onmessage_frame data s) as [-> _].
    split; assumption.
  - apply step_SocketClose in Hstep as (ws & Hi & _ & -> & _).
    unfold carries_session, set_readyState. rewrite Hi. cbn.
    split; [assumption | apply Forall_insert; [assumption|]].
    eapply Forall_lookup_1 in Hall; [|exact Hi]; exact Hall.
  - destruct (timers s !! k) as [[d []]|]; [|discriminate]. cbn in Hstep.
    destruct (d <=? now s); [|discriminate]. unfold turn in Hstep.
    injection Hstep as <- _. rewrite connectWebSocket_final. cbn. rewrite Hloc.
    destruct (isMCPServer loc); split; cbn; auto.
    apply Forall_app. split; [assumption|]. repeat constructor.
  - destruct (0 <=? ms); [|discriminate]. injection Hstep as <- _. split; assumption.
  - injection Hstep as <- _. split; assumption.
  - injection Hstep as <- _. split; assumption.
Qed.

(** X11: the session id is set once and every channel carries it: in every
    state the hook can reach, [window.location] is the one of the page,
    every socket ever opened has the URL built from the page's host and the
    current session id, and no turn changes a session id that is set. *)
Theorem session_is_set_once loc t0 ed s :
  reachable hook (initial loc t0 ed) s ->
  location s = loc
  /\ Forall (fun ws => url ws = wsUrl loc (sessionId s)) (sockets s)
  /\ forall ev s' t,
       step hook s ev = Some (s', t) -> sessionId s <> "" ->
       sessionId s' = sessionId s.
Proof.
  intros Hr.
  assert (one_channel s /\ carries_session loc s) as [_ [Hloc Hall]].
  { induction Hr as [|s ev s' t Hr [Hone Hc] Hstep].
    - split; [apply one_channel_initial | split; [reflexivity | constructor]].
    - split; [eapply one_channel_step | eapply carries_session_step]; eauto. }
  repeat split; try assumption.
  intros ev s' t Hstep. apply (step_keeps_session s ev s' t Hstep).
Qed.

End Sessions.

(** ** The global API *)

Section PublishedRules.
Context {E : Type} `{EditorAdapter E} `{JSON}.
Implicit Type s : State E.

Lemma stays_published_refl s : stays_published s s [].
Proof. intros Hp. exact Hp. Qed.

Lemma stays_published_trans s s1 s2 t1 t2 :
  stays_published (E:=E) s s1 t1 -> stays_published s1 s2 t2 ->
  stays_published s s2 (t1 ++ t2)%list.
Proof. unfold stays_published. auto. Qed.

Lemma stays_published_ws_close : respects stays_published (ws_close (E:=E)).
Proof.
  intros s. unfold stays_published, final, ws_close.
  destruct (current_socket s) as [[i [u []]]|]; auto.
Qed.

End PublishedRules.

Ltac published_frame :=
  cbv zeta;
  repeat (intros; first
    [ apply stays_published_ws_close
    | apply (respects_ret stays_published stays_published_refl)
    | apply (respects_gets stays_published stays_published_refl)
    | apply (respects_when stays_published stays_published_refl)
    | apply respects_if
    | apply (respects_bind stays_published stays_published_trans)
    | (intros ? ?; first [assumption | discriminate]) ]).

Section GlobalAPI.
Context {E : Type} `{EditorAdapter E} `{JSON}.
Implicit Type s : State E.
Import UseWebSocketMCP.

Lemma stays_published_mount letters digit :
  respects stays_published (mount (E:=E) letters digit).
Proof.
  unfold mount, effect_connect, effect_connect_cleanup, effect_session, effect_global,
    connectWebSocket, setSessionId.
  published_frame.
Qed.

(** X12: once [window.strudelMCP] is published, no turn of the hook takes
    it away or resets it to nothing: not the unmount, not the loss of the
    channel, not the editor being detached. *)
Theorem global_api_is_never_removed s ev s' t :
  step hook s ev = Some (s', t) ->
  strudelMCP s <> None -> strudelMCP s' <> None.
Proof.
  intros Hstep Hpub. destruct ev; cbn in Hstep.
  - destruct (String.eqb (sessionId s) ""); [|discriminate].
    injection Hstep as <- _. apply (stays_published_mount letters digit s Hpub).
  - injection Hstep as <- _. rewrite effect_global_strudelMCP.
    destruct (isMCPServer_global (location s) && editor_attached s); [discriminate|assumption].
  - injection Hstep as <- _. rewrite effect_connect_cleanup_final.
    apply (stays_published_ws_close s Hpub).
  - destruct (sockets s !! sock) as [[u []]|] eqn:Hi; try discriminate.
    injection Hstep as <- _. unfold set_readyState. rewrite Hi. exact Hpub.
  - destruct (sockets s !! sock) as [[u []]|] eqn:Hi; try discriminate.
    injection Hstep as <- _. destruct (onmessage_frame data s) as [-> _]. exact Hpub.
  - apply step_SocketClose in Hstep as (ws & Hi & _ & -> & _).
    unfold set_readyState. rewrite Hi. exact Hpub.
  - destruct (timers s !! k) as [[d []]|]; [|discriminate]. cbn in Hstep.
    destruct (d <=? now s); [|discriminate]. unfold turn in Hstep.
    injection Hstep as <- _. rewrite connectWebSocket_final.
    destruct (isMCPServer (location (with_timers (delete k (timers s)) s))); exact Hpub.
  - destruct (0 <=? ms); [|discriminate]. injection Hstep as <- _. exact Hpub.
  - injection Hstep as <- _. exact Hpub.
  - injection Hstep as <- _. exact Hpub.
Qed.

(** X13: the methods of [window.strudelMCP] do not test [editorRef.current]:
    called while no editor is attached, each of [setCode], [play], [stop] and
    [getCode], in either copy, throws a [TypeError] and does nothing. *)
Theorem global_api_without_editor_throws s c :
  editorRef s = None ->
  strudelMCP_setCode c s = (Throw TypeError, s, [])
  /\ strudelMCP_play s = (Throw TypeError, s, [])
  /\ strudelMCP_stop s = (Throw TypeError, s, [])
  /\ strudelMCP_getCode s = (Throw TypeError, s, [])
  /\ Part001.strudelMCP_setCode c s = (Throw TypeError, s, [])
  /\ Part001.strudelMCP_play s = (Throw TypeError, s, [])
  /\ Part001.strudelMCP_stop s = (Throw TypeError, s, [])
  /\ Part001.strudelMCP_getCode s = (Throw TypeError, s, []).
Proof.
  intros He.
  unfold strudelMCP_setCode, strudelMCP_play, strudelMCP_stop, strudelMCP_getCode,
    Part001.strudelMCP_setCode, Part001.strudelMCP_play, Part001.strudelMCP_stop,
    Part001.strudelMCP_getCode, editor_setCode, editor_evaluate, editor_stop,
    editor_method, editor_code, editor_getCode, bind.
  rewrite He. repeat split; reflexivity.
Qed.

(** X14: with an editor attached, [window.strudelMCP.setCode(code)] does to
    the editor what a [strudel-code] message with that code does: the same
    editor calls in the same order and the same editor afterwards. *)
Theorem global_setCode_matches_message s frame data c e :
  JSON_parse frame = Some data -> message_type data = Some "strudel-code" ->
  get data "code" = Normal c -> editorRef s = Some e ->
  editor_calls (trace (strudelMCP_setCode c) s) = editor_calls (trace (onmessage frame) s)
  /\ editorRef (final (strudelMCP_setCode c) s) = editorRef (final (onmessage frame) s).
Proof.
  intros Hp Ht Hc He. unfold trace, final.
  rewrite (onmessage_strudel_code s frame data c e) by assumption.
  unfold strudelMCP_setCode, editor_setCode, editor_evaluate, editor_method, bind.
  rewrite He.
  destruct (setCode c e) as [[[]|err] e1]; cbn; [|split; reflexivity].
  destruct (evaluate e1) as [[[]|err] e2]; split; reflexivity.
Qed.

(** X15: tearing down twice is tearing down once: after the cleanup of the
    connecting effect, a second cleanup changes nothing and closes
    nothing. *)
Theorem teardown_twice s :
  final effect_connect_cleanup (final effect_connect_cleanup s)
    = final effect_connect_cleanup s
  /\ trace effect_connect_cleanup (final effect_connect_cleanup s) = [].
Proof.
  unfold final, trace, effect_connect_cleanup, bind, gets, when, ret, ws_close,
    current_socket.
  destruct (wsRef s) as [i|] eqn:Hw; [|repeat (cbn; rewrite ?Hw); split; reflexivity].
  destruct (sockets s !! i) as [[u r]|] eqn:Hi;
    [|repeat (cbn; rewrite ?Hw, ?Hi); split; reflexivity].
  assert (i < length (sockets s))%nat as Hlt by (eapply lookup_lt_Some; eassumption).
  destruct r;
    repeat (cbn; rewrite ?Hw, ?Hi, ?list_lookup_insert_eq by assumption);
    split; reflexivity.
Qed.

End GlobalAPI.

(** ** These properties on concrete pages *)

Lemma reachable_extend {E : Type} (h : Hook E) s0 s evs :
  reachable h s0 s -> reachable h s0 (after h s evs).
Proof.
  intros Hr. unfold after. destruct (run h s evs) as [[ss t]|] eqn:Hrun; [|exact Hr].
  eapply reachable_run; eassumption.
Qed.

Module MoreRuns.
Import Sample Frozen Pages.

(** A [stop] message with the editor attached. *)
Lemma stop_synonyms_witness :
  editor_calls (trace (UseWebSocketMCP.onmessage (stringify stop_message))
                  (connected (Some editor))) = [CallStop]
  /\ sent (trace (UseWebSocketMCP.onmessage (stringify stop_message))
             (connected (Some editor))) = [].
Proof.
  destruct (stop_synonyms (connected (Some editor)) (stringify stop_message)
              stop_message "strudel-stop")
    as (Hcalls & Hsent & _); [reflexivity | reflexivity | left; reflexivity |].
  split; assumption.
Defined.

Lemma strudel_code_without_editor_witness :
  UseWebSocketMCP.onmessage (stringify strudel_code_message) (connected None) =
    (Normal tt, connected None,
     [Console Log "WebSocket received message:" [AValue strudel_code_message];
      Console Log "Processing strudel-code message:" [AValue strudel_code_message]]).
Proof.
  assert (JSON_parse (stringify strudel_code_message) = Some strudel_code_message)
    as Hp by reflexivity.
  exact (strudel_code_without_editor (connected None) (stringify strudel_code_message)
           strudel_code_message Hp eq_refl eq_refl).
Defined.

(** The frozen editor refuses the code of the message. *)
Lemma throwing_setCode_skips_evaluate_witness :
  editor_calls (trace (UseWebSocketMCP.onmessage (stringify strudel_code_message))
                  frozen_page) = [CallSetCode (VStr "s(bd sn)")]
  /\ final (UseWebSocketMCP.onmessage (stringify strudel_code_message)) frozen_page
       = frozen_page.
Proof.
  destruct (throwing_setCode_skips_evaluate frozen_page
              (stringify strudel_code_message) strudel_code_message (VStr "s(bd sn)")
              frozen (EditorError "setCode: read-only"))
    as (_ & Hcalls & _ & Hfinal);
    [reflexivity | reflexivity | reflexivity | reflexivity | reflexivity |].
  split; [exact Hcalls | exact Hfinal].
Defined.

Lemma request_on_closed_channel_is_dropped_witness :
  sent (trace (UseWebSocketMCP.sendCurrentCodeToServer (VStr "r1")) closing) = []
  /\ editor_calls (trace (UseWebSocketMCP.sendCurrentCodeToServer (VStr "r1")) closing)
     = [ReadCode].
Proof.
  destruct (request_on_closed_channel_is_dropped closing (VStr "r1"))
    as (_ & _ & Hsent & Hcalls & _); [reflexivity|].
  split; [exact Hsent | exact Hcalls].
Defined.


(** The mount of the page of port 8080 with an editor, which publishes, and
    a ping on its open channel, through both copies of the whole turn. *)
Lemma copies_agree_off_requests_witness :
  (exists s1 t1 api,
     step UseWebSocketMCP.hook (page (Some editor)) (Mount "abc" 7) = Some (s1, t1)
     /\ strudelMCP s1 = Some api /\ mcp_getCode api = FnCode
     /\ step Part001.hook (page (Some editor)) (Mount "abc" 7)
          = Some (republish FnGetCode (s1, t1))
     /\ editor_calls (trace (call FnCode []) s1) = [ReadCode]
     /\ editor_calls (trace (call FnGetCode []) s1) = [CallGetCode])
  /\ step UseWebSocketMCP.hook (connected (Some editor))
        (SocketMessage 0 (stringify ping_message))
     = step Part001.hook (connected (Some editor)) (SocketMessage 0 (stringify ping_message)).
Proof.
  split.
  - apply (copies_agree_off_requests (page (Some editor)) (Mount "abc" 7)); reflexivity.
  - apply (copies_agree_off_requests (connected (Some editor))
             (SocketMessage 0 (stringify ping_message))); reflexivity.
Defined.

(** The third socket is the live one. *)
Lemma single_live_channel_witness :
  map readyState (sockets third_attempt) = [CLOSED; CLOSED; CONNECTING]
  /\ wsRef third_attempt = Some 2%nat /\ timers third_attempt = [].
Proof.
  split; [reflexivity|].
  destruct (single_live_channel (localhost "8080") 1000 None third_attempt) as [_ Hlive].
  - apply reachable_extend, reachable_after.
  - destruct (Hlive 2%nat {| url := session_url; readyState := CONNECTING |})
      as (Hw & Ht & _); [reflexivity | discriminate |].
    split; assumption.
Defined.


Lemma session_is_set_once_witness :
  map url (sockets third_attempt) = [session_url; session_url; session_url]
  /\ Forall (fun ws => url ws = session_url) (sockets third_attempt).
Proof.
  split; [reflexivity|].
  refine (proj1 (proj2 (session_is_set_once (localhost "8080") 1000 None third_attempt _))).
  apply reachable_extend, reachable_after.
Defined.

(** The published API outlives the unmount. *)
Lemma global_api_is_never_removed_witness :
  strudelMCP (final UseWebSocketMCP.effect_connect_cleanup (connected (Some editor)))
    <> None.
Proof.
  refine (global_api_is_never_removed (connected (Some editor)) Unmount
            (final UseWebSocketMCP.effect_connect_cleanup (connected (Some editor)))
            (trace UseWebSocketMCP.effect_connect_cleanup (connected (Some editor)))
            eq_refl _).
  vm_compute. discriminate.
Defined.

Lemma global_api_without_editor_throws_witness :
  UseWebSocketMCP.strudelMCP_play (connected None) = (Throw TypeError, connected None, [])
  /\ Part001.strudelMCP_stop (connected None) = (Throw TypeError, connected None, []).
Proof.
  assert (editorRef (connected None) = None) as He by reflexivity.
  destruct (global_api_without_editor_throws (connected None) VNull He)
    as (_ & Hplay & _ & _ & _ & _ & Hstop & _).
  split; [exact Hplay | exact Hstop].
Defined.

Lemma global_setCode_matches_message_witness :
  editor_calls (trace (UseWebSocketMCP.strudelMCP_setCode (VStr "s(bd sn)"))
                  (connected (Some editor)))
  = editor_calls (trace (UseWebSocketMCP.onmessage (stringify described_message))
                    (connected (Some editor))).
Proof.
  destruct (global_setCode_matches_message (connected (Some editor))
              (stringify described_message) described_message (VStr "s(bd sn)") editor)
    as [Hcalls _]; [reflexivity | reflexivity | reflexivity | reflexivity |].
  exact Hcalls.
Defined.

(** A request while the editor throws on reading its code. *)
Lemma every_request_is_answered_witness :
  sent (trace (UseWebSocketMCP.onmessage request) (connected (Some broken_editor))) =
    [(0%nat, stringify (VObj [("type", VStr "current-code-response");
                              ("request_id", VStr "r1");
                              ("code", VStr "// Error: Could not retrieve code");
                              ("timestamp", VNum 1000)]))].
Proof.
  refine (every_request_is_answered (localhost "8080") 1000 (Some broken_editor)
            (connected (Some broken_editor)) 0%nat request get_current_code_message
            (VStr "r1")
            (final (UseWebSocketMCP.onmessage request) (connected (Some broken_editor)))
            (trace (UseWebSocketMCP.onmessage request) (connected (Some broken_editor)))
            _ _ _ _ _).
  - apply reachable_after.
  - vm_compute. reflexivity.
  - vm_compute. reflexivity.
  - reflexivity.
  - reflexivity.
Defined.

(** The development server: nothing is opened, scheduled or published. *)
Lemma inert_off_server_witness :
  sockets (after UseWebSocketMCP.hook dev_page [Mount "abc" 7; Render; Unmount]) = []
  /\ timers (after UseWebSocketMCP.hook dev_page [Mount "abc" 7; Render; Unmount]) = []
  /\ strudelMCP (after UseWebSocketMCP.hook dev_page [Mount "abc" 7; Render; Unmount])
     = None.
Proof.
  destruct (inert_off_server (localhost "4321") 0 (Some editor)
              (after UseWebSocketMCP.hook dev_page [Mount "abc" 7; Render; Unmount]))
    as (Hs & Ht & Hg & _); [reflexivity | apply reachable_after |].
  repeat split; assumption.
Defined.

End MoreRuns.
